(** * PythonRuff: the diagnostic pipeline of [python_ruff.py]

    A shallow embedding of the Sublime Text plugin [python_ruff.py]: tool
    location, configuration discovery, the format / lint / fix commands,
    severity classification and navigation between stored diagnostics.

    Everything the plugin obtains from its surroundings (the file system, the
    command search path, the spawned process, the JSON decoder and the
    editor's text queries) is gathered in the record [Host]; every definition
    of the plugin is a function of such a host, and the statements below hold
    for all of them. *)

From Stdlib Require Import ZArith List String Ascii Bool Lia.
From Stdlib Require Import DecimalString Sorted.
From Equations Require Import Equations.
Import ListNotations.

Open Scope string_scope.
Open Scope Z_scope.

Set Implicit Arguments.

(** ** Python values and exceptions *)

(** The exceptions that the plugin's code can meet.  [ValueError] is what
    [json.loads] raises on malformed text and [RecursionError] what it raises
    on text nested too deeply; the next three come from applying dictionary
    or string operations to a decoded value of another shape;
    [OtherException] is any other subclass of [Exception], with its text. *)
Inductive exn : Type :=
| ValueError
| AttributeError
| TypeError
| KeyError
| RecursionError
| OtherException (text : string).

Inductive result (A : Type) : Type :=
| Ok (x : A)
| Raise (e : exn).
Arguments Ok {A} x.
Arguments Raise {A} e.

Definition bind {A B : Type} (r : result A) (k : A -> result B) : result B :=
  match r with
  | Ok x => k x
  | Raise e => Raise e
  end.

Notation "x <- r ;; k" := (bind r (fun x => k))
  (at level 61, r at next level, right associativity).

(** A Python float as [json.loads] reads it: one of the constants [NaN],
    [Infinity] and [-Infinity] that the decoder accepts, or a decimal
    literal, kept as its sign, digits and power of ten; Python rounds the
    literal to the nearest double. *)
Inductive pyfloat : Type :=
| FNaN
| FInfinity (negative : bool)
| FDecimal (negative : bool) (mantissa : N) (exponent : Z).

(** Whether the double is zero: the digits are all zero, or the literal lies
    at or below half of the least positive double, [2 ^ -1074], and rounds
    to zero. *)
Definition float_is_zero (f : pyfloat) : bool :=
  match f with
  | FNaN | FInfinity _ => false
  | FDecimal _ m e =>
      (Z.of_N m =? 0)
      || ((e <? 0) && (Z.of_N m * 2 ^ 1075 <=? 10 ^ (- e)))
  end.

(** Decoded JSON, as [json.loads] delivers it: [None], booleans, integers,
    floats, strings, lists and dictionaries with string keys. *)
#[warnings="-register-all"]
Inductive json : Type :=
| JNull
| JBool (b : bool)
| JInt (z : Z)
| JFloat (f : pyfloat)
| JStr (s : string)
| JArr (l : list json)
| JObj (kv : list (string * json)).

(** Python's truth value of a decoded value ([if x:], [not x]). *)
Definition truthy (j : json) : bool :=
  match j with
  | JNull => false
  | JBool b => b
  | JInt z => negb (z =? 0)
  | JFloat f => negb (float_is_zero f)
  | JStr s => negb (s =? "")%string
  | JArr l => match l with [] => false | _ => true end
  | JObj kv => match kv with [] => false | _ => true end
  end.

Fixpoint assoc (k : string) (kv : list (string * json)) : option json :=
  match kv with
  | [] => None
  | (k', v) :: rest => if (k' =? k)%string then Some v else assoc k rest
  end.

(** [d.get(key, default)]: only dictionaries have the method. *)
Definition py_get (d : json) (key : string) (default : json) : result json :=
  match d with
  | JObj kv => Ok (match assoc key kv with Some v => v | None => default end)
  | _ => Raise AttributeError
  end.

(** An integer operand of [row - 1]; Python's [bool] is an [int].  A float
    passes the subtraction and is then refused by [text_point], which takes
    integers; every other value fails at the subtraction. *)
Definition py_int (j : json) : result Z :=
  match j with
  | JInt z => Ok z
  | JBool b => Ok (if b then 1 else 0)
  | _ => Raise TypeError
  end.

(** The items a [for] loop draws from a decoded value: the elements of a
    list, the keys of a dictionary, the characters of a string. *)
Definition py_iter (j : json) : result (list json) :=
  match j with
  | JArr l => Ok l
  | JObj kv => Ok (map (fun p => JStr (fst p)) kv)
  | JStr s => Ok (map (fun c => JStr (String c "")) (list_ascii_of_string s))
  | _ => Raise TypeError
  end.

(** ** SeverityClassifier: [_get_severity] *)

Inductive Severity : Type := error | warning | info.

Definition error_prefixes : list string := ["E"; "F"].

Definition warning_prefixes : list string :=
  ["W"; "N"; "D"; "UP"; "ANN"; "S"; "B"; "A"; "C"; "DTZ"; "T"; "EM"; "EXE";
   "ISC"; "ICN"; "G"; "INP"; "PIE"; "PYI"; "PT"; "Q"; "RSE"; "RET"; "SLF";
   "SLOT"; "SIM"; "TID"; "TCH"; "INT"; "ARG"; "PTH"; "TD"; "FIX"; "ERA";
   "PD"; "PGH"; "PL"; "TRY"; "FLY"; "NPY"; "AIR"; "PERF"; "FURB"; "LOG";
   "RUF"].

(** [code.startswith(p)] *)
Definition startswith (code p : string) : bool := prefix p code.

(** [x in l] for a list of strings. *)
Definition str_in (x : string) (l : list string) : bool :=
  existsb (String.eqb x) l.

(** The classifier on a code that is a string. *)
Definition severity_of_code (code : string) : Severity :=
  if (code =? "")%string then error
  else
    let first_char := substring 0 1 code in
    if str_in first_char error_prefixes then error
    else if existsb (startswith code) warning_prefixes then warning
    else info.

(** [_get_severity(code)], on whatever [diag.get("code", "")] yields.  A
    false value is an error; a string is classified by [severity_of_code];
    a non-empty list is indexed and then lacks [startswith]; a dictionary has
    no key [0]; numbers cannot be indexed. *)
Definition _get_severity (code : json) : result Severity :=
  if negb (truthy code) then Ok error
  else
    match code with
    | JStr s => Ok (severity_of_code s)
    | JArr (JStr c :: _) =>
        if str_in c error_prefixes then Ok error else Raise AttributeError
    | JArr _ => Raise AttributeError
    | JObj _ => Raise KeyError
    | _ => Raise TypeError
    end.

(** ** Paths: [os.path.dirname] and [os.path.join] (POSIX) *)

Definition is_sep (c : ascii) : bool := (c =? "/")%char.

(** [p[:p.rfind('/') + 1]] *)
Fixpoint head_of (p : string) : string :=
  match p with
  | EmptyString => EmptyString
  | String c r =>
      match head_of r with
      | EmptyString => if is_sep c then String c EmptyString else EmptyString
      | h => String c h
      end
  end.

(** [s.rstrip('/')] *)
Fixpoint rstrip_sep (s : string) : string :=
  match s with
  | EmptyString => EmptyString
  | String c r =>
      match rstrip_sep r with
      | EmptyString => if is_sep c then EmptyString else String c EmptyString
      | r' => String c r'
      end
  end.

(** [head == '/' * len(head)] *)
Fixpoint all_sep (s : string) : bool :=
  match s with
  | EmptyString => true
  | String c r => is_sep c && all_sep r
  end.

Definition dirname (p : string) : string :=
  let head := head_of p in
  if negb (head =? "")%string && negb (all_sep head) then rstrip_sep head
  else head.

Definition endswith_sep (s : string) : bool :=
  match rev (list_ascii_of_string s) with
  | c :: _ => is_sep c
  | [] => false
  end.

(** [os.path.join(a, b)] for two components. *)
Definition join (a b : string) : string :=
  if startswith b "/" then b
  else if (a =? "")%string || endswith_sep a then a ++ b
  else a ++ "/" ++ b.

(** ** The plugin's surroundings *)

Record Region : Type := mkRegion { a : Z; b : Z }.

Definition begin (r : Region) : Z := Z.min (a r) (b r).
Definition end_ (r : Region) : Z := Z.max (a r) (b r).
Definition empty (r : Region) : bool := a r =? b r.
Definition contains (r : Region) (p : Z) : bool :=
  (begin r <=? p) && (p <=? end_ r).

(** What [Popen] followed by [communicate] and the two [decode] calls can
    come to: the process ended with a return code and two decoded streams,
    the timeout expired, or some other exception was raised (the executable
    could not be started, a stream was not UTF-8). *)
Inductive ProcOutcome : Type :=
| Exited (returncode : Z) (stdout stderr : string)
| TimeoutExpired
| Failed (msg : string).

Record Invocation : Type := mkInvocation {
  cmd : list string;
  stdin : option string;
  cwd : option string;
  timeout : Z
}.

Record Host : Type := mkHost {
  isabs : string -> bool;                     (* os.path.isabs *)
  isfile : string -> bool;                    (* os.path.isfile *)
  access_x : string -> bool;                  (* os.access(p, os.X_OK) *)
  which : string -> option string;            (* shutil.which *)
  abspath : string -> string;                 (* os.path.abspath *)
  spawn : Invocation -> ProcOutcome;          (* subprocess *)
  json_loads : string -> result json;         (* json.loads *)
  text_point : string -> Z -> Z -> Z;         (* view.text_point(row, col) *)
  word : string -> Z -> Region;               (* view.word(point) *)
  line : string -> Z -> Region                (* view.line(point) *)
}.

(** [PythonRuff.sublime-settings]; [None] is an absent key. *)
Record Settings : Type := mkSettings {
  ruff_binary : option string;
  line_length : option Z;
  use_config_file : option bool;
  timeout_setting : option Z
}.

Definition get {A : Type} (o : option A) (default : A) : A :=
  match o with Some x => x | None => default end.

(** ** The search of [shutil.which] (POSIX)

    A command with a directory part is taken as a path of its own and
    returned as it is when it can be run; a bare name is joined to each
    directory of the search path in turn, and the first result that can be
    run is returned.  [runnable] says of a path that it exists, is no
    directory and may be executed. *)
Definition shutil_which (runnable : string -> bool) (path : list string)
  (cmd : string) : option string :=
  if negb (dirname cmd =? "")%string then
    if runnable cmd then Some cmd else None
  else find runnable (map (fun dir => join dir cmd) path).

(** ** ToolLocator: [find_ruff_binary] *)

(** The function returns a path or raises [FileNotFoundError] with a
    message. *)
Definition find_ruff_binary (H : Host) (settings : Settings)
  : string + string :=
  let ruff_binary := get (ruff_binary settings) "ruff" in
  if isabs H ruff_binary then
    if isfile H ruff_binary && access_x H ruff_binary then inl ruff_binary
    else inr ("Ruff binary not found at: " ++ ruff_binary)
  else
    match which H ruff_binary with
    | Some binary_path =>
        if negb (binary_path =? "")%string then inl binary_path
        else inr "Ruff not found in PATH. Please install ruff or configure 'ruff_binary' in settings."
    | None =>
        inr "Ruff not found in PATH. Please install ruff or configure 'ruff_binary' in settings."
    end.

(** ** ConfigResolver: [get_ruff_config_file] *)

Definition config_names : list string :=
  ["ruff.toml"; ".ruff.toml"; "pyproject.toml"].

(** The inner [for] loop: the first name of the list that is a file of the
    directory. *)
Definition first_config (H : Host) (current_dir : string) : option string :=
  find (isfile H) (map (join current_dir) config_names).

Lemma head_of_app (p : string) : exists t, p = (head_of p ++ t)%string.
Proof.
  induction p as [|c r [t Ht]]; simpl.
  - exists EmptyString. reflexivity.
  - destruct (head_of r) as [|c' h] eqn:E.
    + destruct (is_sep c); simpl.
      * exists r. reflexivity.
      * exists (String c r). reflexivity.
    + exists t. simpl in *. f_equal. exact Ht.
Qed.

Lemma rstrip_sep_app (s : string) : exists t, s = (rstrip_sep s ++ t)%string.
Proof.
  induction s as [|c r [t Ht]]; simpl.
  - exists EmptyString. reflexivity.
  - destruct (rstrip_sep r) as [|c' h] eqn:E.
    + destruct (is_sep c); simpl.
      * exists (String c r). reflexivity.
      * exists r. reflexivity.
    + exists t. simpl in *. f_equal. exact Ht.
Qed.

Lemma length_app (s t : string) :
  String.length (s ++ t) = (String.length s + String.length t)%nat.
Proof. induction s; simpl; congruence. Qed.

Lemma app_empty_r (s : string) : (s ++ "")%string = s.
Proof. induction s; simpl; congruence. Qed.

Lemma app_assoc_str (s t u : string) :
  ((s ++ t) ++ u)%string = (s ++ (t ++ u))%string.
Proof. induction s; simpl; congruence. Qed.

Lemma dirname_app (p : string) : exists t, p = (dirname p ++ t)%string.
Proof.
  unfold dirname.
  destruct (head_of_app p) as [t Ht].
  destruct (negb (head_of p =? "")%string && negb (all_sep (head_of p))).
  - destruct (rstrip_sep_app (head_of p)) as [u Hu].
    exists (u ++ t)%string. rewrite <- app_assoc_str, <- Hu. exact Ht.
  - exists t. exact Ht.
Qed.

(** A directory's parent is the directory itself or a strictly shorter
    path: the walk towards the root ends. *)
Lemma dirname_shorter (p : string) :
  dirname p <> p -> (String.length (dirname p) < String.length p)%nat.
Proof.
  intros Hne. destruct (dirname_app p) as [t Ht].
  destruct t as [|c t].
  - rewrite app_empty_r in Ht. congruence.
  - rewrite Ht at 2. rewrite length_app. simpl. lia.
Qed.

(** The [while True] loop of [get_ruff_config_file], from [current_dir]. *)
Equations? walk (H : Host) (current_dir : string) : option string
  by wf (String.length current_dir) lt :=
  walk H current_dir with first_config H current_dir => {
    | Some config_file => Some config_file
    | None with string_dec (dirname current_dir) current_dir => {
        | left _ => None
        | right ne => walk H (dirname current_dir) } }.
Proof. apply dirname_shorter. exact ne. Qed.

Definition get_ruff_config_file (H : Host) (filepath : option string)
  : option string :=
  match filepath with
  | None => None
  | Some f =>
      if (f =? "")%string then None
      else walk H (dirname (abspath H f))
  end.

(** ** The view: buffer, selection, markers and stored diagnostics *)

(** What the plugin tells the user.  The two messages that interpolate
    decoded values keep them as they are, because the text Python gives a
    number or a dictionary plays no part below. *)
Inductive Message : Type :=
| status_message (text : string)
| status_found (total_issues : nat)        (* "PythonRuff: Found {} issue(s)" *)
| status_diag (message code : json)        (* "PythonRuff: {} [{}]" *)
| error_message (text : string)
| error_exception (e : exn).               (* "PythonRuff: {}".format(str(e)) *)

(** One entry of the [ruff_diagnostics] setting of a view. *)
Record StoredDiag : Type := mkDiag {
  region : Region;
  code : json;
  message : json;
  url : json;
  severity : Severity;
  row : json;
  col : json
}.

Record View : Type := mkView {
  is_python : bool;                         (* match_selector(0, "source.python") *)
  file_name : option string;
  folders : list string;                    (* window().folders() *)
  buffer : string;
  sel : list Region;
  regions : string -> list Region;          (* get_regions(key) *)
  ruff_diagnostics : option (list StoredDiag);
  exec_panel : option (list StoredDiag);    (* the lines of the "exec" panel *)
  shown : option Region;                    (* view.show *)
  edits : list (Region * string);           (* the calls of view.replace *)
  log : list Message                        (* newest first *)
}.

Definition say (m : Message) (v : View) : View :=
  mkView (is_python v) (file_name v) (folders v) (buffer v) (sel v)
    (regions v) (ruff_diagnostics v) (exec_panel v) (shown v) (edits v)
    (m :: log v).

Definition size (v : View) : Z := Z.of_nat (String.length (buffer v)).

(** [sublime.Region(0, self.view.size())] *)
Definition whole (v : View) : Region := mkRegion 0 (size v).

(** [view.substr(region)] *)
Definition substr (v : View) (r : Region) : string :=
  substring (Z.to_nat (begin r)) (Z.to_nat (end_ r) - Z.to_nat (begin r))
    (buffer v).

(** [view.replace(edit, region, text)] *)
Definition replace (r : Region) (text : string) (v : View) : View :=
  let n := String.length (buffer v) in
  let new_buffer :=
    (substring 0 (Z.to_nat (begin r)) (buffer v) ++ text ++
     substring (Z.to_nat (end_ r)) (n - Z.to_nat (end_ r)) (buffer v))%string in
  mkView (is_python v) (file_name v) (folders v) new_buffer (sel v)
    (regions v) (ruff_diagnostics v) (exec_panel v) (shown v)
    ((r, text) :: edits v) (log v).

(** [view.erase_regions(key)] and [view.add_regions(key, rs, ...)] *)
Definition set_regions (key : string) (rs : list Region) (v : View) : View :=
  mkView (is_python v) (file_name v) (folders v) (buffer v) (sel v)
    (fun k => if (k =? key)%string then rs else regions v k)
    (ruff_diagnostics v) (exec_panel v) (shown v) (edits v) (log v).

Definition erase_regions (key : string) (v : View) : View :=
  set_regions key [] v.

Definition add_regions (key : string) (rs : list Region) (v : View) : View :=
  set_regions key rs v.

(** [view.settings().set("ruff_diagnostics", ds)] and [....erase(...)] *)
Definition set_diagnostics (ds : option (list StoredDiag)) (v : View) : View :=
  mkView (is_python v) (file_name v) (folders v) (buffer v) (sel v)
    (regions v) ds (exec_panel v) (shown v) (edits v) (log v).

Definition set_exec_panel (ds : list StoredDiag) (v : View) : View :=
  mkView (is_python v) (file_name v) (folders v) (buffer v) (sel v)
    (regions v) (ruff_diagnostics v) (Some ds) (shown v) (edits v) (log v).

(** [sel().clear(); sel().add(region); show(region)] *)
Definition select (r : Region) (v : View) : View :=
  mkView (is_python v) (file_name v) (folders v) (buffer v) [r]
    (regions v) (ruff_diagnostics v) (exec_panel v) (Some r) (edits v)
    (log v).

Definition erase_markers (v : View) : View :=
  erase_regions "ruff_info"
    (erase_regions "ruff_warnings" (erase_regions "ruff_errors" v)).

(** ** Building the command line *)

(** A path that is present and not the empty string ([if filepath:]). *)
Definition present (p : option string) : option string :=
  match p with
  | Some s => if (s =? "")%string then None else Some s
  | None => None
  end.

(** ["--config", config_file] when a file was found and the setting allows. *)
Definition config_args (H : Host) (settings : Settings)
  (filepath : option string) : list string :=
  match present (get_ruff_config_file H filepath) with
  | Some config_file =>
      if get (use_config_file settings) true then ["--config"; config_file]
      else []
  | None => []
  end.

(** The working directory: the file's directory, else the first folder. *)
Definition working_directory (v : View) : option string :=
  match present (file_name v) with
  | Some filepath => Some (dirname filepath)
  | None => match folders v with f :: _ => Some f | [] => None end
  end.

Definition str_of_Z (z : Z) : string := NilZero.string_of_int (Z.to_int z).

Definition newline : string := String (ascii_of_nat 10) "".

(** The characters at which [str.splitlines] breaks, among the 256 that a
    character of the model can be: line feed to carriage return, the three
    separators 28 to 30 and the next-line character 133. *)
Definition is_line_boundary (c : ascii) : bool :=
  let n := nat_of_ascii c in
  ((10 <=? n) && (n <=? 13))%nat || ((28 <=? n) && (n <=? 30))%nat
  || (n =? 133)%nat.

(** [error_msg.splitlines()[0]] of a non-empty text. *)
Fixpoint first_line (s : string) : string :=
  match s with
  | EmptyString => EmptyString
  | String c r => if is_line_boundary c then EmptyString
                  else String c (first_line r)
  end.

Definition failure_text (error_msg : string) : string :=
  if (error_msg =? "")%string then "Unknown error" else first_line error_msg.

(** ** [PythonRuffFormatCommand.run] *)

Definition format_cmd (H : Host) (settings : Settings) (v : View)
  (ruff_binary : string) : list string :=
  [ruff_binary; "format"]
  ++ match line_length settings with
     | Some n => if n =? 0 then [] else ["--line-length"; str_of_Z n]
     | None => []
     end
  ++ config_args H settings (file_name v)
  ++ ["-"].

(** The region a format run works on: the first selection, or the whole
    buffer when that is empty or selections are not to be used. *)
Definition format_region (use_selection : bool) (v : View) (region0 : Region)
  : Region :=
  if empty region0 || negb use_selection then whole v else region0.

(** [Popen(cmd, ..., cwd=cwd)] and [communicate(input=code, timeout=...)] *)
Definition format_invocation (H : Host) (settings : Settings) (v : View)
  (ruff_binary code : string) : Invocation :=
  mkInvocation (format_cmd H settings v ruff_binary) (Some code)
    (working_directory v) (get (timeout_setting settings) 10).

Definition format_run (H : Host) (settings : Settings) (use_selection : bool)
  (v : View) : View :=
  if negb (is_python v) then
    say (status_message "PythonRuff: Not a Python file") v
  else
    match find_ruff_binary H settings with
    | inr e => say (error_message e) v
    | inl ruff_binary =>
        match sel v with
        | [] => v                      (* sel()[0]: IndexError leaves the command *)
        | region0 :: _ =>
            let region := format_region use_selection v region0 in
            let code := substr v region in
            match spawn H (format_invocation H settings v ruff_binary code) with
            | Exited returncode stdout stderr =>
                if returncode =? 0 then
                  let formatted_code := stdout in
                  if negb (formatted_code =? code)%string then
                    say (status_message "PythonRuff: Formatted successfully")
                      (replace region formatted_code v)
                  else
                    say (status_message "PythonRuff: Already formatted") v
                else
                  say (status_message
                         ("PythonRuff: Formatting failed - "
                          ++ failure_text stderr)) v
            | TimeoutExpired =>
                say (error_message "PythonRuff: Ruff execution timed out") v
            | Failed msg => say (error_message ("PythonRuff: " ++ msg)) v
            end
        end
    end.

(** ** [PythonRuffFixCommand.run] *)

Definition fix_cmd (H : Host) (settings : Settings) (v : View)
  (ruff_binary : string) : list string :=
  [ruff_binary; "check"; "--fix"]
  ++ config_args H settings (file_name v)
  ++ ["--stdin-filename";
      match present (file_name v) with
      | Some filepath => filepath
      | None => "stdin.py"
      end]
  ++ ["-"].

Definition fix_invocation (H : Host) (settings : Settings) (v : View)
  (ruff_binary code : string) : Invocation :=
  mkInvocation (fix_cmd H settings v ruff_binary) (Some code)
    (working_directory v) (get (timeout_setting settings) 10).

Definition fix_run (H : Host) (settings : Settings) (v : View) : View :=
  if negb (is_python v) then
    say (status_message "PythonRuff: Not a Python file") v
  else
    match find_ruff_binary H settings with
    | inr e => say (error_message e) v
    | inl ruff_binary =>
        let code := substr v (whole v) in
        match spawn H (fix_invocation H settings v ruff_binary code) with
        | Exited returncode stdout stderr =>
            if (returncode =? 0) || (returncode =? 1) then
              let fixed_code := stdout in
              if negb (fixed_code =? "")%string
                 && negb (fixed_code =? code)%string then
                say (status_message "PythonRuff: Fixed issues successfully")
                  (replace (whole v) fixed_code v)
              else
                say (status_message "PythonRuff: No fixable issues found") v
            else
              say (status_message
                     ("PythonRuff: Fix failed - " ++ failure_text stderr)) v
        | TimeoutExpired =>
            say (error_message "PythonRuff: Ruff execution timed out") v
        | Failed msg => say (error_message ("PythonRuff: " ++ msg)) v
        end
    end.

(** ** [PythonRuffLintCommand] *)

(** The end of the highlighted span of an issue that starts at [point]:
    the given end location when there is one, else the end of the word at
    the point, else (no word) the end of the line. *)
Definition end_point_of (H : Host) (v : View) (diag row column : json)
  (point : Z) : result Z :=
  end_location <- py_get diag "end_location" (JObj []) ;;
  if truthy end_location then
    end_row <- py_get end_location "row" row ;;
    end_col <- py_get end_location "column" column ;;
    er <- py_int end_row ;;
    ec <- py_int end_col ;;
    Ok (text_point H (buffer v) (er - 1) (ec - 1))
  else
    let word_region := word H (buffer v) point in
    if empty word_region then Ok (end_ (line H (buffer v) point))
    else Ok (end_ word_region).

(** The body of the [for diag in diagnostics] loop of [_show_diagnostics]:
    the entry appended to [all_diagnostics]. *)
Definition diagnostic_of (H : Host) (v : View) (diag : json)
  : result StoredDiag :=
  location <- py_get diag "location" (JObj []) ;;
  row <- py_get location "row" (JInt 1) ;;
  column <- py_get location "column" (JInt 1) ;;
  line <- py_int row ;;
  col <- py_int column ;;
  let point := text_point H (buffer v) (line - 1) (col - 1) in
  end_point <- end_point_of H v diag row column point ;;
  let region := mkRegion point end_point in
  code <- py_get diag "code" (JStr "") ;;
  message <- py_get diag "message" (JStr "") ;;
  url <- py_get diag "url" (JStr "") ;;
  severity <- _get_severity code ;;
  Ok (mkDiag region code message url severity row column).

Fixpoint all_diagnostics_of (H : Host) (v : View) (diags : list json)
  : result (list StoredDiag) :=
  match diags with
  | [] => Ok []
  | diag :: rest =>
      d <- diagnostic_of H v diag ;;
      ds <- all_diagnostics_of H v rest ;;
      Ok (d :: ds)
  end.

Definition severity_eqb (s t : Severity) : bool :=
  match s, t with
  | error, error | warning, warning | info, info => true
  | _, _ => false
  end.

Definition regions_of (s : Severity) (ds : list StoredDiag) : list Region :=
  map region (filter (fun d => severity_eqb (severity d) s) ds).

Definition add_regions_if (key : string) (rs : list Region) (v : View) : View :=
  match rs with
  | [] => v
  | _ => add_regions key rs v
  end.

(** [_show_in_exec_panel] *)
Definition _show_in_exec_panel (ds : list StoredDiag) (v : View) : View :=
  match ds with
  | [] => v
  | _ => set_exec_panel ds v
  end.

(** [_show_diagnostics]: the loop touches nothing of the view, so an
    exception raised in it leaves the view as it was. *)
Definition _show_diagnostics (H : Host) (v : View) (diagnostics : json)
  : result View :=
  diags <- py_iter diagnostics ;;
  all_diagnostics <- all_diagnostics_of H v diags ;;
  let error_regions := regions_of error all_diagnostics in
  let warning_regions := regions_of warning all_diagnostics in
  let info_regions := regions_of info all_diagnostics in
  let total_issues :=
    (List.length error_regions + List.length warning_regions
     + List.length info_regions)%nat in
  Ok (_show_in_exec_panel all_diagnostics
        (say (status_found total_issues)
           (add_regions_if "ruff_info" info_regions
              (add_regions_if "ruff_warnings" warning_regions
                 (add_regions_if "ruff_errors" error_regions
                    (set_diagnostics (Some all_diagnostics) v)))))).

Definition lint_cmd (H : Host) (settings : Settings) (v : View)
  (ruff_binary : string) : list string :=
  [ruff_binary; "check"]
  ++ config_args H settings (file_name v)
  ++ ["--output-format"; "json"]
  ++ match present (file_name v) with
     | Some filepath => [filepath]
     | None => ["--stdin-filename"; "stdin.py"; "-"]
     end.

(** A saved file is linted by name; an unsaved buffer goes to the tool's
    standard input. *)
Definition lint_invocation (H : Host) (settings : Settings) (v : View)
  (ruff_binary : string) : Invocation :=
  mkInvocation (lint_cmd H settings v ruff_binary)
    match present (file_name v) with
    | Some _ => None
    | None => Some (substr v (whole v))
    end
    (working_directory v) (get (timeout_setting settings) 10).

Definition parse_failure : Message :=
  error_message "PythonRuff: Failed to parse linter output".

(** [PythonRuffLintCommand.run] *)
Definition lint_run (H : Host) (settings : Settings) (v : View) : View :=
  if negb (is_python v) then
    say (status_message "PythonRuff: Not a Python file") v
  else
    match find_ruff_binary H settings with
    | inr e => say (error_message e) v
    | inl ruff_binary =>
        let v := erase_markers v in
        match spawn H (lint_invocation H settings v ruff_binary) with
        | Exited returncode output error_output =>
            if returncode =? 0 then
              say (status_message "PythonRuff: No issues found")
                (set_diagnostics None (erase_markers v))
            else if returncode =? 1 then
              match (diagnostics <-
                       (if negb (output =? "")%string
                        then json_loads H output else Ok (JArr [])) ;;
                     _show_diagnostics H v diagnostics) with
              | Ok v' => v'
              | Raise ValueError | Raise AttributeError =>
                  say parse_failure v
              | Raise e => say (error_exception e) v
              end
            else
              let error_msg :=
                if negb (error_output =? "")%string then error_output
                else output in
              say (error_message
                     ("PythonRuff Lint failed:" ++ newline ++ error_msg)) v
        | TimeoutExpired =>
            say (error_message "PythonRuff: Ruff execution timed out") v
        | Failed msg => say (error_message ("PythonRuff: " ++ msg)) v
        end
    end.

(** ** Navigation: [PythonRuffNextErrorCommand], [PythonRuffPreviousErrorCommand] *)

(** The first stored diagnostic that begins after the position; when there
    is none, the first of the list. *)
Definition next_diag (diagnostics : list StoredDiag) (current_pos : Z)
  : option StoredDiag :=
  match find (fun diag => begin (region diag) >? current_pos) diagnostics with
  | Some diag => Some diag
  | None => hd_error diagnostics
  end.

(** The last stored diagnostic that begins before the position; when there
    is none, the last of the list. *)
Definition prev_diag (diagnostics : list StoredDiag) (current_pos : Z)
  : option StoredDiag :=
  match find (fun diag => begin (region diag) <? current_pos)
          (rev diagnostics) with
  | Some diag => Some diag
  | None => hd_error (rev diagnostics)
  end.

Definition goto (d : StoredDiag) (v : View) : View :=
  say (status_diag (message d) (code d)) (select (region d) v).

Definition navigate
  (pick : list StoredDiag -> Z -> option StoredDiag) (v : View) : View :=
  match get (ruff_diagnostics v) [] with
  | [] => say (status_message "PythonRuff: No errors found") v
  | diagnostics =>
      match sel v with
      | [] => v                        (* sel()[0]: IndexError leaves the command *)
      | region0 :: _ =>
          match pick diagnostics (begin region0) with
          | Some d => goto d v
          | None => v
          end
      end
  end.

Definition next_error_run (v : View) : View := navigate next_diag v.
Definition previous_error_run (v : View) : View := navigate prev_diag v.

(** ** [PythonRuffClearLintCommand.run] *)

Definition clear_run (v : View) : View :=
  say (status_message "PythonRuff: Cleared lint markers")
    (set_diagnostics None (erase_markers v)).

(** ** Hover: [PythonRuffEventListener.on_hover] *)

(** The stored diagnostics whose region contains the point, in stored
    order. *)
Definition hover_diagnostics (diagnostics : list StoredDiag) (point : Z)
  : list StoredDiag :=
  filter (fun diag => contains (region diag) point) diagnostics.

Definition severity_color (s : Severity) : string :=
  match s with
  | error => "#ff3333"
  | warning => "#ffaa00"
  | info => "#3399ff"
  end.

(** One block of the popup: the colour of the code, the code, the message
    and the documentation link, present when the stored url is true. *)
Record HoverEntry : Type := mkHoverEntry {
  entry_color : string;
  entry_code : json;
  entry_message : json;
  entry_url : option json
}.

Definition hover_entry (diag : StoredDiag) : HoverEntry :=
  mkHoverEntry (severity_color (severity diag)) (code diag) (message diag)
    (if truthy (url diag) then Some (url diag) else None).

(** The popup that [on_hover] shows at a point, if it shows one:
    [hover_text] says that the zone is [HOVER_TEXT], [python_here] that the
    point is in Python source. *)
Definition on_hover (v : View) (point : Z) (hover_text python_here : bool)
  : option (list HoverEntry) :=
  if negb hover_text then None
  else if negb python_here then None
  else
    match get (ruff_diagnostics v) [] with
    | [] => None
    | diagnostics =>
        match hover_diagnostics diagnostics point with
        | [] => None
        | found => Some (map hover_entry found)
        end
    end.

(** ** Saving: [on_pre_save], [on_post_save] and the toggle commands *)

(** The three on-save keys, in the plugin's settings file or under
    [settings.python_ruff] of the project data; [None] is an absent key. *)
Record SaveFlags : Type := mkSaveFlags {
  format_on_save : option bool;
  lint_on_save : option bool;
  fix_on_save : option bool
}.

(** [project_settings.get(key, settings.get(key, False))]; without project
    data the settings file decides. *)
Definition effective (key : SaveFlags -> option bool) (flags : SaveFlags)
  (project : option SaveFlags) : bool :=
  let global := get (key flags) false in
  match project with
  | Some project_settings => get (key project_settings) global
  | None => global
  end.

Definition on_pre_save (H : Host) (settings : Settings) (flags : SaveFlags)
  (project : option SaveFlags) (v : View) : View :=
  if negb (is_python v) then v
  else
    let v :=
      if effective fix_on_save flags project then fix_run H settings v
      else v in
    if effective format_on_save flags project
    then format_run H settings false v
    else v.

Definition on_post_save (H : Host) (settings : Settings) (flags : SaveFlags)
  (project : option SaveFlags) (v : View) : View :=
  if negb (is_python v) then v
  else if effective lint_on_save flags project then lint_run H settings v
  else v.

Definition toggle_status (name : string) (current : bool) : Message :=
  status_message
    ("PythonRuff: " ++ name ++ " on save "
     ++ (if negb current then "enabled" else "disabled")).

(** [PythonRuffToggleFormatOnSaveCommand]: [run] and [is_checked]. *)
Definition toggle_format_on_save (flags : SaveFlags) : SaveFlags * Message :=
  let current := get (format_on_save flags) false in
  (mkSaveFlags (Some (negb current)) (lint_on_save flags) (fix_on_save flags),
   toggle_status "Format" current).

Definition format_is_checked (flags : SaveFlags) : bool :=
  get (format_on_save flags) false.

(** [PythonRuffToggleLintOnSaveCommand] *)
Definition toggle_lint_on_save (flags : SaveFlags) : SaveFlags * Message :=
  let current := get (lint_on_save flags) false in
  (mkSaveFlags (format_on_save flags) (Some (negb current)) (fix_on_save flags),
   toggle_status "Lint" current).

Definition lint_is_checked (flags : SaveFlags) : bool :=
  get (lint_on_save flags) false.

(** [PythonRuffToggleFixOnSaveCommand] *)
Definition toggle_fix_on_save (flags : SaveFlags) : SaveFlags * Message :=
  let current := get (fix_on_save flags) false in
  (mkSaveFlags (format_on_save flags) (lint_on_save flags) (Some (negb current)),
   toggle_status "Fix" current).

Definition fix_is_checked (flags : SaveFlags) : bool :=
  get (fix_on_save flags) false.

(** The start of a stored diagnostic, as navigation reads it. *)
Definition start (d : StoredDiag) : Z := begin (region d).

(** The stored diagnostics are in the order of their starts. *)
Definition in_start_order (ds : list StoredDiag) : Prop :=
  StronglySorted (fun d1 d2 => start d1 <= start d2) ds.

(** The stored diagnostics start at strictly increasing offsets. *)
Definition strictly_ordered (ds : list StoredDiag) : Prop :=
  StronglySorted (fun d1 d2 => start d1 < start d2) ds.

(** The diagnostics that [_show_diagnostics] computes from a decoded value
    and a buffer. *)
Definition diagnostics_of (H : Host) (v : View) (diagnostics : json)
  : result (list StoredDiag) :=
  diags <- py_iter diagnostics ;; all_diagnostics_of H v diags.

(** The outcomes of a lint run in which nothing is stored: the tool exits
    with a code other than 0 and 1, runs out of time or cannot be run, or it
    exits with 1 and its output is not decodable or raises while it is turned
    into diagnostics. *)
Definition lint_fails (H : Host) (v : View) (outcome : ProcOutcome) : Prop :=
  match outcome with
  | Exited returncode output _ =>
      returncode <> 0 /\
      (returncode = 1 ->
       output <> "" /\
       match json_loads H output with
       | Raise _ => True
       | Ok diagnostics =>
           exists e, _show_diagnostics H (erase_markers v) diagnostics = Raise e
       end)
  | TimeoutExpired | Failed _ => True
  end.

(** ** The walk of the resolver, as the list of files it looks at *)

(** The directories from [d] up to the root, nearest first; the root is the
    directory that is its own parent. *)
Equations? ancestors (d : string) : list string
  by wf (String.length d) lt :=
  ancestors d with string_dec (dirname d) d => {
    | left _ => [d]
    | right ne => d :: ancestors (dirname d) }.
Proof. apply dirname_shorter. exact ne. Qed.

(** Every file the resolver may return, in the order it is tried. *)
Definition candidates (d : string) : list string :=
  flat_map (fun dir => map (join dir) config_names) (ancestors d).

(** ** A reference decoder

    A decoder after [json.loads]: [null], [true], [false], integers and
    floats, the three constants [NaN], [Infinity] and [-Infinity], strings
    with their escapes, arrays and objects, white space between them; a
    repeated key keeps its last value.  A text outside the grammar raises
    [ValueError], and so does an escape for a character beyond the 256 of the
    model; a text nested deeper than the interpreter allows raises
    [RecursionError].  It stands for [json.loads] in the closed examples. *)
Module Json.

Definition is_ws (c : ascii) : bool :=
  let n := nat_of_ascii c in
  ((n =? 32) || (n =? 9) || (n =? 10) || (n =? 13))%nat.

Fixpoint skip_ws (l : list ascii) : list ascii :=
  match l with
  | c :: r => if is_ws c then skip_ws r else l
  | [] => []
  end.

Definition dquote : ascii := ascii_of_nat 34.

Definition unescape (c : ascii) : option ascii :=
  if Ascii.eqb c dquote then Some dquote else
  match c with
  | "\"%char => Some "\"%char
  | "/"%char => Some "/"%char
  | "n"%char => Some (ascii_of_nat 10)
  | "t"%char => Some (ascii_of_nat 9)
  | "r"%char => Some (ascii_of_nat 13)
  | "b"%char => Some (ascii_of_nat 8)
  | "f"%char => Some (ascii_of_nat 12)
  | _ => None
  end.

Definition hex_digit (c : ascii) : option nat :=
  let n := nat_of_ascii c in
  if ((48 <=? n) && (n <=? 57))%nat then Some (n - 48)%nat
  else if ((65 <=? n) && (n <=? 70))%nat then Some (n - 55)%nat
  else if ((97 <=? n) && (n <=? 102))%nat then Some (n - 87)%nat
  else None.

(** The character of a four-digit escape, when it is one of the 256
    characters of the model. *)
Definition escaped_char (h1 h2 h3 h4 : ascii) : option ascii :=
  match hex_digit h1, hex_digit h2, hex_digit h3, hex_digit h4 with
  | Some a, Some b, Some c, Some d =>
      let code := (((a * 16 + b) * 16 + c) * 16 + d)%nat in
      if (code <? 256)%nat then Some (ascii_of_nat code) else None
  | _, _, _, _ => None
  end.

(** The characters after an opening quote, up to the closing one. *)
Fixpoint string_body (l : list ascii) : option (string * list ascii) :=
  match l with
  | [] => None
  | "\"%char :: "u"%char :: h1 :: h2 :: h3 :: h4 :: r =>
      match escaped_char h1 h2 h3 h4, string_body r with
      | Some c', Some (s, r') => Some (String c' s, r')
      | _, _ => None
      end
  | "\"%char :: c :: r =>
      match unescape c, string_body r with
      | Some c', Some (s, r') => Some (String c' s, r')
      | _, _ => None
      end
  | c :: r =>
      if Ascii.eqb c dquote then Some (EmptyString, r)
      else if (nat_of_ascii c <? 32)%nat then None
      else match string_body r with
           | Some (s, r') => Some (String c s, r')
           | None => None
           end
  end.

Definition digit (c : ascii) : option N :=
  let n := nat_of_ascii c in
  if ((48 <=? n) && (n <=? 57))%nat then Some (N.of_nat (n - 48)) else None.

(** The digits at the head of a text: their value after [acc], how many
    they are, and the rest. *)
Fixpoint digits (acc : N) (count : nat) (l : list ascii)
  : N * nat * list ascii :=
  match l with
  | c :: r =>
      match digit c with
      | Some d => digits (10 * acc + d)%N (S count) r
      | None => (acc, count, l)
      end
  | [] => (acc, count, [])
  end.

(** The integer part of a number: a single zero, or digits that begin with
    another digit than zero. *)
Definition int_part (l : list ascii) : option (N * list ascii) :=
  match l with
  | c :: r =>
      match digit c with
      | Some d =>
          if (d =? 0)%N then Some (0%N, r)
          else let '(n, _, r') := digits d 1 r in Some (n, r')
      | None => None
      end
  | [] => None
  end.

(** A fraction part, if the text goes on with a point and a digit: the
    mantissa with the fraction's digits appended, and their number. *)
Definition frac_part (n : N) (l : list ascii) : option (N * nat * list ascii) :=
  match l with
  | "."%char :: c :: r =>
      match digit c with
      | Some d => Some (digits (10 * n + d)%N 1 r)
      | None => None
      end
  | _ => None
  end.

(** An exponent part, if the text goes on with [e] or [E], an optional sign
    and a digit. *)
Definition exp_part (l : list ascii) : option (Z * list ascii) :=
  match l with
  | e :: r =>
      if Ascii.eqb e "e" || Ascii.eqb e "E" then
        let (negative, r1) :=
          match r with
          | "-"%char :: r1 => (true, r1)
          | "+"%char :: r1 => (false, r1)
          | _ => (false, r)
          end in
        match r1 with
        | c :: r2 =>
            match digit c with
            | Some d =>
                let '(x, _, r3) := digits d 1 r2 in
                Some (if negative then - Z.of_N x else Z.of_N x, r3)
            | None => None
            end
        | [] => None
        end
      else None
  | [] => None
  end.

(** A number: an integer, or a float when a fraction or an exponent
    follows. *)
Definition number (l : list ascii) : option (json * list ascii) :=
  let (negative, l1) :=
    match l with
    | "-"%char :: l1 => (true, l1)
    | _ => (false, l)
    end in
  match int_part l1 with
  | None => None
  | Some (n, r) =>
      let '(m, k, r1, has_frac) :=
        match frac_part n r with
        | Some (m, k, r1) => (m, k, r1, true)
        | None => (n, O, r, false)
        end in
      match exp_part r1 with
      | Some (x, r2) => Some (JFloat (FDecimal negative m (x - Z.of_nat k)), r2)
      | None =>
          if has_frac
          then Some (JFloat (FDecimal negative m (- Z.of_nat k)), r1)
          else Some (JInt (if negative then - Z.of_N n else Z.of_N n), r1)
      end
  end.

(** A member read before the members [kvs] that follow it: a key that comes
    again keeps its first place and takes its last value. *)
Definition add_member (k : string) (v : json) (kvs : list (string * json))
  : list (string * json) :=
  match assoc k kvs with
  | Some v' => (k, v') :: filter (fun p => negb (fst p =? k)%string) kvs
  | None => (k, v) :: kvs
  end.

(** The decoder proper.  [fuel] bounds the steps, of which a value and the
    list or object around it take two for at least one character; [depth]
    is the nesting the interpreter still allows, and entering a list or an
    object beyond it raises [RecursionError]. *)
Fixpoint value (fuel depth : nat) (l : list ascii)
  : result (json * list ascii) :=
  match fuel with
  | O => Raise ValueError
  | S fuel =>
      match skip_ws l with
      | "n"%char :: "u"%char :: "l"%char :: "l"%char :: r => Ok (JNull, r)
      | "t"%char :: "r"%char :: "u"%char :: "e"%char :: r =>
          Ok (JBool true, r)
      | "f"%char :: "a"%char :: "l"%char :: "s"%char :: "e"%char :: r =>
          Ok (JBool false, r)
      | "N"%char :: "a"%char :: "N"%char :: r => Ok (JFloat FNaN, r)
      | "I"%char :: "n"%char :: "f"%char :: "i"%char :: "n"%char
        :: "i"%char :: "t"%char :: "y"%char :: r =>
          Ok (JFloat (FInfinity false), r)
      | "-"%char :: "I"%char :: "n"%char :: "f"%char :: "i"%char
        :: "n"%char :: "i"%char :: "t"%char :: "y"%char :: r =>
          Ok (JFloat (FInfinity true), r)
      | "["%char :: r =>
          match depth with
          | O => Raise RecursionError
          | S depth =>
              match skip_ws r with
              | "]"%char :: r' => Ok (JArr [], r')
              | _ =>
                  p <- elements fuel depth r ;;
                  Ok (JArr (fst p), snd p)
              end
          end
      | "{"%char :: r =>
          match depth with
          | O => Raise RecursionError
          | S depth =>
              match skip_ws r with
              | "}"%char :: r' => Ok (JObj [], r')
              | _ =>
                  p <- members fuel depth r ;;
                  Ok (JObj (fst p), snd p)
              end
          end
      | [] => Raise ValueError
      | c :: r =>
          if Ascii.eqb c dquote then
            match string_body r with
            | Some (s, r') => Ok (JStr s, r')
            | None => Raise ValueError
            end
          else
            match number (c :: r) with
            | Some (j, r') => Ok (j, r')
            | None => Raise ValueError
            end
      end
  end

with elements (fuel depth : nat) (l : list ascii)
  : result (list json * list ascii) :=
  match fuel with
  | O => Raise ValueError
  | S fuel =>
      p <- value fuel depth l ;;
      match skip_ws (snd p) with
      | ","%char :: r' =>
          q <- elements fuel depth r' ;;
          Ok (fst p :: fst q, snd q)
      | "]"%char :: r' => Ok ([fst p], r')
      | _ => Raise ValueError
      end
  end

with members (fuel depth : nat) (l : list ascii)
  : result (list (string * json) * list ascii) :=
  match fuel with
  | O => Raise ValueError
  | S fuel =>
      match skip_ws l with
      | c :: r =>
          if negb (Ascii.eqb c dquote) then Raise ValueError else
          match string_body r with
          | Some (k, r1) =>
              match skip_ws r1 with
              | ":"%char :: r2 =>
                  p <- value fuel depth r2 ;;
                  match skip_ws (snd p) with
                  | ","%char :: r4 =>
                      q <- members fuel depth r4 ;;
                      Ok (add_member k (fst p) (fst q), snd q)
                  | "}"%char :: r4 => Ok ([(k, fst p)], r4)
                  | _ => Raise ValueError
                  end
              | _ => Raise ValueError
              end
          | None => Raise ValueError
          end
      | [] => Raise ValueError
      end
  end.

(** JSON text written with single quotes in place of double ones. *)
Fixpoint text (s : string) : string :=
  match s with
  | EmptyString => EmptyString
  | String c r =>
      String (if (nat_of_ascii c =? 39)%nat then dquote else c) (text r)
  end.

(** [json.loads] with room for [depth] nested lists and objects: one value,
    with nothing but white space around it. *)
Definition decode (depth : nat) (s : string) : result json :=
  let l := list_ascii_of_string s in
  p <- value (2 * List.length l + 2) depth l ;;
  match skip_ws (snd p) with
  | [] => Ok (fst p)
  | _ => Raise ValueError
  end.

(** What is left of the interpreter's recursion limit of 1000 when a command
    runs; the exact number depends on the call stack. *)
Definition recursion_room : nat := 990.

Definition loads (s : string) : result json := decode recursion_room s.

End Json.

(** ** A reference host

    A POSIX-like host built from finite data: the regular files, the
    executable ones, the directories of the search path, the current
    directory, the tool and the decoder.  It serves the closed examples. *)
Module Posix.

Definition isabs (p : string) : bool := startswith p "/".

(** [shutil.which] over the executables of the host. *)
Definition which (path executables : list string) (name : string)
  : option string :=
  shutil_which (fun p => str_in p executables) path name.

(** [path.split('/')] *)
Fixpoint split_sep (s : string) : list string :=
  match s with
  | EmptyString => [EmptyString]
  | String c r =>
      if is_sep c then EmptyString :: split_sep r
      else match split_sep r with
           | comp :: comps => String c comp :: comps
           | [] => [String c EmptyString]
           end
  end.

(** The loop of [normpath] over the components; [new_comps] is kept in
    reverse. *)
Fixpoint norm_comps (initial_slashes : bool) (new_comps comps : list string)
  : list string :=
  match comps with
  | [] => rev new_comps
  | comp :: rest =>
      if (comp =? "")%string || (comp =? ".")%string then
        norm_comps initial_slashes new_comps rest
      else if negb (comp =? "..")%string
              || (negb initial_slashes
                  && match new_comps with [] => true | _ => false end)
              || match new_comps with
                 | last :: _ => (last =? "..")%string
                 | [] => false
                 end
      then norm_comps initial_slashes (comp :: new_comps) rest
      else norm_comps initial_slashes (tl new_comps) rest
  end.

(** ['/'.join(comps)] *)
Fixpoint join_sep (comps : list string) : string :=
  match comps with
  | [] => ""
  | [comp] => comp
  | comp :: rest => comp ++ "/" ++ join_sep rest
  end.

(** [os.path.normpath] *)
Definition normpath (path : string) : string :=
  if (path =? "")%string then "."
  else
    let initial :=
      if startswith path "/" then
        if startswith path "//" && negb (startswith path "///")
        then "//" else "/"
      else "" in
    let normed :=
      initial ++ join_sep (norm_comps (startswith path "/") []
                             (split_sep path)) in
    if (normed =? "")%string then "." else normed.

(** [os.path.abspath] with the current directory [cwd]. *)
Definition abspath (cwd p : string) : string :=
  normpath (if isabs p then p else join cwd p).

Definition is_newline (c : ascii) : bool := (nat_of_ascii c =? 10)%nat.

Definition is_word_char (c : ascii) : bool :=
  let n := nat_of_ascii c in
  ((48 <=? n) && (n <=? 57) || (65 <=? n) && (n <=? 90)
   || (97 <=? n) && (n <=? 122) || (n =? 95))%nat.

Fixpoint run_length (ok : ascii -> bool) (l : list ascii) : nat :=
  match l with
  | c :: r => if ok c then S (run_length ok r) else O
  | [] => O
  end.

(** The longest stretch of characters satisfying [ok] around a point. *)
Definition span_around (ok : ascii -> bool) (text : string) (p : Z) : Region :=
  let chars := list_ascii_of_string text in
  let n := Z.to_nat p in
  mkRegion (p - Z.of_nat (run_length ok (rev (firstn n chars))))
           (p + Z.of_nat (run_length ok (skipn n chars))).

Definition word (text : string) (p : Z) : Region :=
  span_around is_word_char text p.

Definition line (text : string) (p : Z) : Region :=
  span_around (fun c => negb (is_newline c)) text p.

Fixpoint line_start (chars : list ascii) (row : nat) : nat :=
  match row, chars with
  | O, _ => O
  | _, [] => O
  | S r, c :: rest =>
      S (line_start rest (if is_newline c then r else row))
  end.

Definition text_point (text : string) (row col : Z) : Z :=
  Z.of_nat (line_start (list_ascii_of_string text) (Z.to_nat row)) + col.

Definition host (files executables path : list string) (cwd : string)
  (tool : Invocation -> ProcOutcome) (decoder : string -> result json)
  : Host :=
  mkHost isabs (fun p => str_in p files) (fun p => str_in p executables)
    (which path executables) (abspath cwd) tool decoder
    text_point word line.

End Posix.

(** ** Example data

    Hosts, views and diagnostics for the closed examples. *)

Definition example_host : Host :=
  Posix.host ["/usr/bin/ruff"; "/w/a/pyproject.toml"] ["/usr/bin/ruff"]
    ["/usr/local/bin"; "/usr/bin"] "/w"
    (fun _ => TimeoutExpired) Json.loads.

(** A tool for the closed examples: it answers on standard input only,
    with the code and the streams that [respond] computes from the text. *)
Definition stdin_tool (respond : string -> ProcOutcome) (inv : Invocation)
  : ProcOutcome :=
  match stdin inv with
  | Some code => respond code
  | None => Failed "no input"
  end.

Definition example_view (text : string) : View :=
  mkView true (Some "/w/a/b/c/file.py") ["/w"] text [mkRegion 0 0]
    (fun _ => []) None None None [] [].

(** A formatter for the closed examples: it drops carriage returns. *)
Fixpoint drop_cr (s : string) : string :=
  match s with
  | EmptyString => EmptyString
  | String c r =>
      if (nat_of_ascii c =? 13)%nat then drop_cr r else String c (drop_cr r)
  end.

Definition format_host : Host :=
  Posix.host ["/usr/bin/ruff"] ["/usr/bin/ruff"] ["/usr/bin"] "/w"
    (stdin_tool (fun code => Exited 0 (drop_cr code) "")) Json.loads.

Definition cr : string := String (ascii_of_nat 13) "".

Definition stored_example : StoredDiag :=
  mkDiag (mkRegion 0 6) (JStr "F401") (JStr "unused import") (JStr "")
    error (JInt 1) (JInt 1).

Definition lint_host (respond : ProcOutcome) : Host :=
  Posix.host ["/usr/bin/ruff"] ["/usr/bin/ruff"] ["/usr/bin"] "/w"
    (fun _ => respond) Json.loads.

(** An issue as the tool prints it, at a row and column, with a null end
    location. *)
Definition issue_at (row column : Z) : json :=
  JObj [("code", JStr "F401"); ("message", JStr "unused import");
        ("location", JObj [("row", JInt row); ("column", JInt column)]);
        ("end_location", JNull); ("url", JStr "")].

Definition diag_at (n : Z) : StoredDiag :=
  mkDiag (mkRegion n (n + 4)) (JStr "F401") (JStr "unused import") (JStr "")
    error (JInt 1) (JInt 1).

Definition warning_at (n : Z) : StoredDiag :=
  mkDiag (mkRegion n (n + 1)) (JStr "W291") (JStr "trailing whitespace")
    (JStr "") warning (JInt 1) (JInt 1).

(** Two issues as the tool prints them: one with an end location, one
    without. *)
Definition two_issues_text : string :=
  Json.text
    "[{'code': 'F401', 'message': 'unused import', 'location': {'row': 1, 'column': 8}, 'end_location': {'row': 1, 'column': 10}, 'url': 'u'}, {'code': 'W291', 'message': 'trailing whitespace', 'location': {'row': 1, 'column': 10}}]".

(** * Properties *)

(** ** SeverityClassifier *)

(** How a string code is classified, case by case: the first character
    decides on [error] before the warning families are consulted. *)
Lemma severity_of_code_cases (code : string) :
  severity_of_code code =
    if (code =? "")%string then error
    else if startswith code "E" || startswith code "F" then error
    else if existsb (startswith code) warning_prefixes then warning
    else info.
Proof.
  unfold severity_of_code.
  destruct code as [|c r]; [reflexivity|].
  cbn [String.eqb substring].
  replace (substring 0 0 r) with EmptyString by (destruct r; reflexivity).
  assert (Hp : forall x : ascii,
             startswith (String c r) (String x "") = Ascii.eqb c x).
  { intros x. unfold startswith. cbn [prefix].
    destruct (ascii_dec x c) as [->|Hn].
    - rewrite Ascii.eqb_refl. destruct r; reflexivity.
    - symmetry. apply Ascii.eqb_neq. congruence. }
  rewrite !Hp.
  unfold str_in, error_prefixes. cbn [existsb String.eqb].
  destruct (Ascii.eqb c "E"), (Ascii.eqb c "F"); reflexivity.
Qed.

(** C9.  The classifier maps "E501" to error, "W605" and "RUF100" to
    warning, the empty code, the missing code (the default of
    [diag.get("code", "")]) and the null code to error, and the code "ZZ1",
    whose prefix is in no list, to info. *)
Theorem severity_examples :
  _get_severity (JStr "E501") = Ok error /\
  _get_severity (JStr "W605") = Ok warning /\
  _get_severity (JStr "RUF100") = Ok warning /\
  _get_severity (JStr "") = Ok error /\
  (code <- py_get (JObj [("message", JStr "m")]) "code" (JStr "") ;;
   _get_severity code) = Ok error /\
  _get_severity JNull = Ok error /\
  _get_severity (JStr "ZZ1") = Ok info.
Proof. repeat split; reflexivity. Qed.

(** C2.  The code "EM101" begins with the prefix "EM" of the warning list,
    and so do "EXE001", "ERA001", "FLY002", "FURB101" and "FIX001" with
    theirs; the classifier returns error for each, because their first
    character is "E" or "F". *)
Theorem severity_warning_family_shadowed :
  In "EM" warning_prefixes /\
  startswith "EM101" "EM" = true /\
  _get_severity (JStr "EM101") = Ok error /\
  map (fun c => _get_severity (JStr c))
    ["EXE001"; "ERA001"; "FLY002"; "FURB101"; "FIX001"]
  = [Ok error; Ok error; Ok error; Ok error; Ok error].
Proof.
  split; [|repeat split; reflexivity].
  unfold warning_prefixes. simpl. tauto.
Qed.

(** ** ToolLocator *)

(** What the locator returns, in terms of the host's [which]: with a
    configured absolute path it succeeds exactly when the path is a file and
    executable, and then returns that path; with any other name it returns
    what [which] finds, when that is not the empty path. *)
Lemma find_ruff_binary_by_which (H : Host) (settings : Settings) :
  let name := get (ruff_binary settings) "ruff" in
  (forall p, which H name = Some p -> p <> "") ->
  (isabs H name = true ->
     (forall p, find_ruff_binary H settings = inl p <->
                p = name /\ isfile H name = true /\ access_x H name = true) /\
     ((exists msg, find_ruff_binary H settings = inr msg) <->
      ~ (isfile H name = true /\ access_x H name = true))) /\
  (isabs H name = false ->
     (forall p, find_ruff_binary H settings = inl p <->
                which H name = Some p) /\
     ((exists msg, find_ruff_binary H settings = inr msg) <->
      which H name = None)).
Proof.
  intros name Hne. unfold find_ruff_binary. fold name. split; intros Habs;
    rewrite Habs.
  - destruct (isfile H name) eqn:Ef, (access_x H name) eqn:Ea; simpl;
      (split; [intros p; split; [intros E; inversion E; auto
                                | intros (-> & E1 & E2); congruence]
              | split; [intros [msg E]; try discriminate; intros [? ?];
                        discriminate
                       | intros N; try (exfalso; apply N; split; reflexivity);
                         eexists; reflexivity]]).
  - destruct (which H name) as [q|] eqn:Ew.
    + assert (Hq : (q =? "")%string = false)
        by (apply String.eqb_neq, Hne; reflexivity).
      rewrite Hq. simpl. split.
      * intros p. split; intros E; inversion E; reflexivity.
      * split; [intros [msg E]; discriminate | discriminate].
    + split.
      * intros p. split; discriminate.
      * split; [reflexivity | intros _; eexists; reflexivity].
Qed.

(** The first element of a list that passes a test, by its place. *)
Lemma find_first_iff {A : Type} (p : A -> bool) (l : list A) (x : A) :
  find p l = Some x <->
  exists before after,
    l = (before ++ x :: after)%list /\ p x = true /\
    forall y, In y before -> p y = false.
Proof.
  split.
  - induction l as [|a l IH]; simpl; [discriminate|].
    destruct (p a) eqn:Pa.
    + intros [= <-]. exists [], l. repeat split; auto. intros ? [].
    + intros Hf. destruct (IH Hf) as (bf & af & -> & Px & Hall).
      exists (a :: bf), af. repeat split; auto.
      intros y [<-|Hy]; auto.
  - intros (bf & af & -> & Px & Hall).
    induction bf as [|a bf IH]; simpl.
    + rewrite Px. reflexivity.
    + rewrite (Hall a (or_introl eq_refl)). apply IH.
      intros y Hy. apply Hall. right. exact Hy.
Qed.

(** The search of a bare name returns the entry of the first directory of
    the path under which the name can be run. *)
Lemma shutil_which_bare (runnable : string -> bool) (path : list string)
  (name p : string) :
  dirname name = "" ->
  (shutil_which runnable path name = Some p <->
   exists before dir after,
     path = (before ++ dir :: after)%list /\ p = join dir name /\
     runnable p = true /\
     forall d, In d before -> runnable (join d name) = false).
Proof.
  intros Hbare. unfold shutil_which. rewrite Hbare. cbn [String.eqb negb].
  rewrite find_first_iff. split.
  - intros (bf & af & E & Pp & Hall).
    apply map_eq_app in E. destruct E as (bf' & rest & -> & <- & E).
    apply map_eq_cons in E. destruct E as (dir & af' & -> & <- & <-).
    exists bf', dir, af'. repeat split; auto.
    intros d Hd. apply Hall.
    exact (in_map (fun d' => join d' name) bf' d Hd).
  - intros (bf & dir & af & -> & -> & Pp & Hall).
    exists (map (fun d => join d name) bf), (map (fun d => join d name) af).
    rewrite map_app. repeat split; auto.
    intros y Hy. apply in_map_iff in Hy. destruct Hy as (d & <- & Hd). auto.
Qed.

Lemma shutil_which_none (runnable : string -> bool) (path : list string)
  (name : string) :
  dirname name = "" ->
  (shutil_which runnable path name = None <->
   forall dir, In dir path -> runnable (join dir name) = false).
Proof.
  intros Hbare. unfold shutil_which. rewrite Hbare. cbn [String.eqb negb].
  split.
  - intros Hf dir Hd.
    apply (find_none _ _ Hf (join dir name)).
    exact (in_map (fun d' => join d' name) path dir Hd).
  - intros Hall.
    destruct (find runnable (map (fun dir => join dir name) path)) eqn:Hf;
      [|reflexivity].
    apply find_some in Hf. destruct Hf as [Hin Pp].
    apply in_map_iff in Hin. destruct Hin as (d & <- & Hd).
    rewrite (Hall d Hd) in Pp. discriminate.
Qed.

(** C7, as amended.  On a host whose [which] is the search of
    [shutil.which] over a search path: with a configured absolute path the
    locator succeeds exactly when the path is a file and executable, and
    returns that path; with a bare name it returns the first match that can
    be run along the search path and fails exactly when no directory of the
    path holds one; with any other name, which the search takes as a path of
    its own, it returns the name exactly when the name itself can be run,
    whatever the search path holds. *)
Theorem find_ruff_binary_search (H : Host) (settings : Settings)
  (runnable : string -> bool) (path : list string) :
  let name := get (ruff_binary settings) "ruff" in
  (forall cmd, which H cmd = shutil_which runnable path cmd) ->
  runnable "" = false ->
  (isabs H name = true ->
     (forall p, find_ruff_binary H settings = inl p <->
                p = name /\ isfile H name = true /\ access_x H name = true) /\
     ((exists msg, find_ruff_binary H settings = inr msg) <->
      ~ (isfile H name = true /\ access_x H name = true))) /\
  (isabs H name = false -> dirname name = "" ->
     (forall p, find_ruff_binary H settings = inl p <->
                exists before dir after,
                  path = (before ++ dir :: after)%list /\
                  p = join dir name /\ runnable p = true /\
                  forall d, In d before -> runnable (join d name) = false) /\
     ((exists msg, find_ruff_binary H settings = inr msg) <->
      forall dir, In dir path -> runnable (join dir name) = false)) /\
  (isabs H name = false -> dirname name <> "" ->
     (forall p, find_ruff_binary H settings = inl p <->
                p = name /\ runnable name = true) /\
     ((exists msg, find_ruff_binary H settings = inr msg) <->
      runnable name = false)).
Proof.
  intros name Hwhich Hempty.
  assert (Hne : forall p, which H name = Some p -> p <> "").
  { intros p Hp ->. rewrite Hwhich in Hp. unfold shutil_which in Hp.
    destruct (negb (dirname name =? "")%string).
    - destruct (runnable name) eqn:Rn; [|discriminate].
      injection Hp as Hn. rewrite Hn in Rn. congruence.
    - apply find_some in Hp. destruct Hp as [_ Rp]. congruence. }
  destruct (find_ruff_binary_by_which H settings Hne) as [Habs Hrel].
  fold name in Habs, Hrel.
  split; [exact Habs|]. split.
  - intros Hna Hbare. destruct (Hrel Hna) as [Hok Herr]. split.
    + intros p. rewrite Hok, Hwhich. apply shutil_which_bare. exact Hbare.
    + rewrite Herr, Hwhich. apply shutil_which_none. exact Hbare.
  - intros Hna Hdir. destruct (Hrel Hna) as [Hok Herr].
    assert (Hw : which H name = if runnable name then Some name else None).
    { rewrite Hwhich. unfold shutil_which.
      apply String.eqb_neq in Hdir. rewrite Hdir. reflexivity. }
    split.
    + intros p. rewrite Hok, Hw.
      destruct (runnable name); split.
      * intros [= <-]. split; reflexivity.
      * intros [-> _]. reflexivity.
      * discriminate.
      * intros [_ E]. discriminate E.
    + rewrite Herr, Hw.
      destruct (runnable name); split; congruence.
Qed.

Lemma find_ruff_binary_search_witness :
  find_ruff_binary example_host (mkSettings None None None None)
  = inl "/usr/bin/ruff".
Proof.
  destruct (@find_ruff_binary_search example_host
              (mkSettings None None None None)
              (fun p => str_in p ["/usr/bin/ruff"])
              ["/usr/local/bin"; "/usr/bin"]
              (fun cmd => eq_refl) eq_refl) as (_ & Hbare & _).
  destruct (Hbare eq_refl eq_refl) as [Hok _].
  apply Hok. exists ["/usr/local/bin"], "/usr/bin", [].
  split; [reflexivity|]. split; [reflexivity|]. split; [reflexivity|].
  intros d [<-|[]]. reflexivity.
Defined.

(** C7, as stated, fails for a configured name with a directory part: with
    "bin/ruff" configured and runnable below the current directory, the
    locator succeeds with that name, though no directory of the search path
    holds a match. *)
Lemma relative_path_needs_no_match :
  let H := Posix.host ["bin/ruff"] ["bin/ruff"] ["/usr/local/bin"; "/usr/bin"]
             "/w" (fun _ => TimeoutExpired) Json.loads in
  let settings := mkSettings (Some "bin/ruff") None None None in
  isabs H "bin/ruff" = false /\
  (forall dir, In dir ["/usr/local/bin"; "/usr/bin"] ->
     str_in (join dir "bin/ruff") ["bin/ruff"] = false) /\
  find_ruff_binary H settings = inl "bin/ruff".
Proof.
  cbv zeta. split; [reflexivity|]. split; [|reflexivity].
  intros dir [<-|[<-|[]]]; reflexivity.
Qed.

(** ** ConfigResolver *)

Lemma find_app_first {A : Type} (p : A -> bool) (l1 l2 : list A) :
  find p (l1 ++ l2)%list =
    match find p l1 with Some x => Some x | None => find p l2 end.
Proof.
  induction l1 as [|x l1 IH]; simpl; [reflexivity|].
  destruct (p x); auto.
Qed.

Lemma candidates_root (d : string) :
  dirname d = d -> candidates d = map (join d) config_names.
Proof.
  intros E. unfold candidates. rewrite ancestors_equation_1.
  destruct (string_dec (dirname d) d) as [e|ne]; [|contradiction].
  simp ancestors. simpl. reflexivity.
Qed.

Lemma candidates_step (d : string) :
  dirname d <> d ->
  candidates d = (map (join d) config_names ++ candidates (dirname d))%list.
Proof.
  intros ne. unfold candidates. rewrite (ancestors_equation_1 d).
  destruct (string_dec (dirname d) d) as [e|ne']; [contradiction|].
  rewrite ancestors_clause_1_equation_2. simpl. reflexivity.
Qed.

(** The loop returns the first file among the candidates. *)
Lemma walk_candidates (H : Host) (d : string) :
  walk H d = find (isfile H) (candidates d).
Proof.
  funelim (walk H d).
  - destruct (string_dec (dirname current_dir) current_dir) as [e|ne].
    + rewrite (candidates_root e). symmetry. exact Heq.
    + rewrite (candidates_step ne), find_app_first.
      unfold first_config in Heq. rewrite Heq. reflexivity.
  - rewrite (candidates_root e). symmetry. exact Heq0.
  - rewrite (candidates_step ne), find_app_first.
    unfold first_config in Heq0. rewrite Heq0. assumption.
Qed.

(** The walk ends at a directory that is its own parent. *)
Lemma ancestors_ends_at_root (d : string) :
  exists before root,
    ancestors d = (before ++ [root])%list /\ dirname root = root.
Proof.
  funelim (ancestors d).
  - exists [], d. split; [reflexivity | assumption].
  - destruct H as (before & root & E & Hroot).
    exists (d :: before), root. rewrite E. split; [reflexivity | assumption].
Qed.

(** C4.  The resolver returns the first existing file among the candidates
    of the walk: the directories from the one containing the file up to the
    root, nearest first, and in each directory ruff.toml, .ruff.toml and
    pyproject.toml in that order; it returns nothing when none of them
    exists and nothing when the path is absent or empty.  For
    a/b/c/file.py with pyproject.toml only in a/, it returns
    a/pyproject.toml. *)
Theorem get_ruff_config_file_spec :
  (forall (H : Host) (filepath : option string),
     get_ruff_config_file H filepath =
       match present filepath with
       | None => None
       | Some f => find (isfile H) (candidates (dirname (abspath H f)))
       end) /\
  candidates "/w/a/b/c" =
    ["/w/a/b/c/ruff.toml"; "/w/a/b/c/.ruff.toml"; "/w/a/b/c/pyproject.toml";
     "/w/a/b/ruff.toml"; "/w/a/b/.ruff.toml"; "/w/a/b/pyproject.toml";
     "/w/a/ruff.toml"; "/w/a/.ruff.toml"; "/w/a/pyproject.toml";
     "/w/ruff.toml"; "/w/.ruff.toml"; "/w/pyproject.toml";
     "/ruff.toml"; "/.ruff.toml"; "/pyproject.toml"] /\
  get_ruff_config_file
    (Posix.host ["/w/a/pyproject.toml"] [] [] "/w"
       (fun _ => TimeoutExpired) Json.loads)
    (Some "a/b/c/file.py") = Some "/w/a/pyproject.toml" /\
  get_ruff_config_file
    (Posix.host ["/w/a/pyproject.toml"; "/w/a/b/.ruff.toml"] [] [] "/w"
       (fun _ => TimeoutExpired) Json.loads)
    (Some "/w/a/b/c/file.py") = Some "/w/a/b/.ruff.toml" /\
  get_ruff_config_file
    (Posix.host [] [] [] "/w" (fun _ => TimeoutExpired) Json.loads)
    (Some "a/b/c/file.py") = None.
Proof.
  split; [|repeat split; reflexivity].
  intros H [f|]; simpl; [|reflexivity].
  destruct (f =? "")%string; [reflexivity|].
  apply walk_candidates.
Qed.

(** A walk on which no candidate exists yields no configuration file. *)
Lemma get_ruff_config_file_none (H : Host) (f : string) :
  (forall p, In p (candidates (dirname (abspath H f))) -> isfile H p = false) ->
  get_ruff_config_file H (Some f) = None.
Proof.
  intros Hno. unfold get_ruff_config_file.
  destruct (f =? "")%string; [reflexivity|].
  rewrite walk_candidates.
  destruct (find (isfile H) (candidates (dirname (abspath H f)))) eqn:E;
    [|reflexivity].
  apply find_some in E. destruct E as [Hin Hf].
  rewrite (Hno _ Hin) in Hf. discriminate.
Qed.

(** ** Format and fix: when the buffer is written *)

Lemma substring_all (s : string) : substring 0 (String.length s) s = s.
Proof. induction s; simpl; congruence. Qed.

Lemma substring_at_end (s : string) : substring (String.length s) 0 s = "".
Proof. induction s; simpl; auto. Qed.

Lemma substring_none (s : string) : substring 0 0 s = "".
Proof. destruct s; reflexivity. Qed.

Lemma begin_whole (v : View) : Z.to_nat (begin (whole v)) = O.
Proof. unfold begin, whole, size. simpl. lia. Qed.

Lemma end_whole (v : View) :
  Z.to_nat (end_ (whole v)) = String.length (buffer v).
Proof. unfold end_, whole, size. simpl. lia. Qed.

(** The text of the whole buffer is the buffer. *)
Lemma substr_whole (v : View) : substr v (whole v) = buffer v.
Proof.
  unfold substr. rewrite begin_whole, end_whole, Nat.sub_0_r.
  apply substring_all.
Qed.

(** Replacing the whole buffer leaves exactly the new text. *)
Lemma buffer_replace_whole (v : View) (text : string) :
  buffer (replace (whole v) text v) = text.
Proof.
  unfold replace. cbn [buffer]. rewrite begin_whole, end_whole, Nat.sub_diag.
  rewrite substring_none, substring_at_end. simpl. apply app_empty_r.
Qed.

(** C6.  When the tool of a fix run exits with a code other than 0 and 1,
    the buffer is not replaced; when it exits with 0 or 1 and its output is
    the text of the buffer, the buffer is not written either. *)
Theorem fix_safety (H : Host) (settings : Settings) (v : View)
  (ruff_binary : string) (returncode : Z) (stdout stderr : string) :
  find_ruff_binary H settings = inl ruff_binary ->
  spawn H (fix_invocation H settings v ruff_binary
             (substr v (whole v)))
  = Exited returncode stdout stderr ->
  (returncode <> 0 /\ returncode <> 1 ->
   buffer (fix_run H settings v) = buffer v /\
   edits (fix_run H settings v) = edits v) /\
  ((returncode = 0 \/ returncode = 1) ->
   stdout = substr v (whole v) ->
   buffer (fix_run H settings v) = buffer v /\
   edits (fix_run H settings v) = edits v).
Proof.
  intros Hfind Hspawn. unfold fix_run.
  destruct (is_python v); simpl; [|split; intros; split; reflexivity].
  rewrite Hfind, Hspawn. split.
  - intros [H0 H1].
    apply Z.eqb_neq in H0. apply Z.eqb_neq in H1. rewrite H0, H1.
    simpl. split; reflexivity.
  - intros Hrc Heq.
    assert (Hc : (returncode =? 0) || (returncode =? 1) = true)
      by (destruct Hrc as [-> | ->]; reflexivity).
    rewrite Hc. subst stdout. rewrite String.eqb_refl, andb_false_r.
    split; reflexivity.
Qed.

(** C10.  When the tool of a fix run exits with 0 or 1 and prints nothing,
    the buffer is not replaced: the run reports that nothing was fixable. *)
Theorem fix_empty_output (H : Host) (settings : Settings) (v : View)
  (ruff_binary : string) (returncode : Z) (stderr : string) :
  is_python v = true ->
  find_ruff_binary H settings = inl ruff_binary ->
  spawn H (fix_invocation H settings v ruff_binary
             (substr v (whole v)))
  = Exited returncode "" stderr ->
  returncode = 0 \/ returncode = 1 ->
  fix_run H settings v
  = say (status_message "PythonRuff: No fixable issues found") v /\
  buffer (fix_run H settings v) = buffer v /\
  edits (fix_run H settings v) = edits v.
Proof.
  intros Hpy Hfind Hspawn Hrc.
  assert (E : fix_run H settings v
              = say (status_message "PythonRuff: No fixable issues found") v).
  { unfold fix_run. rewrite Hpy, Hfind, Hspawn. simpl.
    destruct Hrc as [-> | ->]; reflexivity. }
  rewrite E. repeat split; reflexivity.
Qed.

Lemma fix_safety_witness :
  buffer (fix_run
            (Posix.host ["/usr/bin/ruff"] ["/usr/bin/ruff"] ["/usr/bin"] "/w"
               (stdin_tool (fun _ => Exited 2 "import os" "error: boom"))
               Json.loads)
            (mkSettings None None None None) (example_view "import  os"))
  = "import  os" /\
  buffer (fix_run
            (Posix.host ["/usr/bin/ruff"] ["/usr/bin/ruff"] ["/usr/bin"] "/w"
               (stdin_tool (fun code => Exited 1 code ""))
               Json.loads)
            (mkSettings None None None None) (example_view "import  os"))
  = "import  os".
Proof.
  split.
  - refine (proj1 (proj1 (@fix_safety _ (mkSettings None None None None)
                            (example_view "import  os") "/usr/bin/ruff" 2
                            "import os" "error: boom" _ _) _));
      [reflexivity | reflexivity | split; discriminate].
  - refine (proj1 (proj2 (@fix_safety _ (mkSettings None None None None)
                            (example_view "import  os") "/usr/bin/ruff" 1
                            "import  os" "" _ _) _ _));
      [reflexivity | reflexivity | right; reflexivity | reflexivity].
Defined.

Lemma fix_empty_output_witness :
  buffer (fix_run
            (Posix.host ["/usr/bin/ruff"] ["/usr/bin/ruff"] ["/usr/bin"] "/w"
               (stdin_tool (fun _ => Exited 0 "" ""))
               Json.loads)
            (mkSettings None None None None) (example_view "import  os"))
  = "import  os".
Proof.
  refine (proj1 (proj2 (@fix_empty_output _ (mkSettings None None None None)
                          (example_view "import  os") "/usr/bin/ruff" 0 ""
                          _ _ _ _)));
    [reflexivity | reflexivity | reflexivity | left; reflexivity].
Defined.

(** What a format run does when the tool exits with 0. *)
Lemma format_run_exit0 (H : Host) (settings : Settings)
  (use_selection : bool) (v : View) (ruff_binary : string)
  (region0 : Region) (rest : list Region) (stdout stderr : string) :
  is_python v = true ->
  find_ruff_binary H settings = inl ruff_binary ->
  sel v = region0 :: rest ->
  let region := format_region use_selection v region0 in
  spawn H (format_invocation H settings v ruff_binary (substr v region))
  = Exited 0 stdout stderr ->
  format_run H settings use_selection v =
    if (stdout =? substr v region)%string
    then say (status_message "PythonRuff: Already formatted") v
    else say (status_message "PythonRuff: Formatted successfully")
           (replace region stdout v).
Proof.
  intros Hpy Hfind Hsel region Hspawn. unfold format_run.
  rewrite Hpy, Hfind, Hsel. simpl.
  fold (format_region use_selection v region0). fold region.
  rewrite Hspawn. simpl.
  destruct (stdout =? substr v region)%string; reflexivity.
Qed.

(** Runs that stop before the tool is started: the facts that stop them
    are rewritten until the run has unfolded to the view it was given. *)
Ltac trivial_run :=
  unfold format_run;
  repeat match goal with
         | E : ?t = _ |- context [?t] => rewrite E; cbn
         end;
  split; reflexivity.

(** Two whole-buffer format runs in a row with a tool that prints [fmt] of
    its input and exits with 0: when [fmt] leaves formatted text alone, the
    second run writes nothing. *)
Lemma format_twice (H : Host) (settings : Settings) (v : View)
  (fmt : string -> string) :
  (forall inv code, stdin inv = Some code ->
     exists stderr, spawn H inv = Exited 0 (fmt code) stderr) ->
  (forall s, fmt (fmt s) = fmt s) ->
  let v1 := format_run H settings false v in
  let v2 := format_run H settings false v1 in
  buffer v2 = buffer v1 /\ edits v2 = edits v1.
Proof.
  intros Htool Hidem v1 v2.
  destruct (is_python v) eqn:Hpy; [|subst v2 v1; trivial_run].
  destruct (find_ruff_binary H settings) as [bin|msg] eqn:Hfind;
    [|subst v2 v1; trivial_run].
  destruct (sel v) as [|region0 rest] eqn:Hsel; [subst v2 v1; trivial_run|].
  assert (Hreg : forall w r, format_region false w r = whole w)
    by (intros w r; unfold format_region; rewrite orb_true_r; reflexivity).
  (* the first run *)
  destruct (Htool (format_invocation H settings v bin
                     (substr v (format_region false v region0)))
              (substr v (format_region false v region0)) eq_refl)
    as [err1 Hsp1].
  pose proof (format_run_exit0 H settings false v Hpy Hfind Hsel Hsp1) as E1.
  fold v1 in E1. rewrite Hreg, substr_whole in E1.
  assert (Hb1 : buffer v1 = fmt (buffer v)).
  { rewrite E1. destruct (fmt (buffer v) =? buffer v)%string eqn:Eq.
    - apply String.eqb_eq in Eq. simpl. congruence.
    - cbn [say buffer]. apply buffer_replace_whole. }
  assert (Hpy1 : is_python v1 = true)
    by (rewrite E1; destruct (fmt (buffer v) =? buffer v)%string; exact Hpy).
  assert (Hsel1 : sel v1 = region0 :: rest)
    by (rewrite E1; destruct (fmt (buffer v) =? buffer v)%string; exact Hsel).
  (* the second run *)
  destruct (Htool (format_invocation H settings v1 bin
                     (substr v1 (format_region false v1 region0)))
              (substr v1 (format_region false v1 region0)) eq_refl)
    as [err2 Hsp2].
  pose proof (format_run_exit0 H settings false v1 Hpy1 Hfind Hsel1 Hsp2)
    as E2.
  fold v2 in E2. rewrite Hreg, substr_whole, Hb1, Hidem in E2.
  rewrite String.eqb_refl in E2. rewrite E2. split; reflexivity.
Qed.

(** C8.  When the tool of a format run exits with 0, its output replaces the
    text of the formatted region, and the buffer is written only if the
    output differs from that text; an output equal to the text leaves the
    buffer alone, so that a second run over formatted text changes nothing. *)
Theorem format_exit0_spec (H : Host) (settings : Settings) :
  (forall (use_selection : bool) (v : View) (ruff_binary : string)
          (region0 : Region) (rest : list Region) (stdout stderr : string),
     is_python v = true ->
     find_ruff_binary H settings = inl ruff_binary ->
     sel v = region0 :: rest ->
     let region := format_region use_selection v region0 in
     spawn H (format_invocation H settings v ruff_binary (substr v region))
     = Exited 0 stdout stderr ->
     (stdout <> substr v region ->
      buffer (format_run H settings use_selection v)
      = buffer (replace region stdout v) /\
      edits (format_run H settings use_selection v)
      = (region, stdout) :: edits v) /\
     (stdout = substr v region ->
      buffer (format_run H settings use_selection v) = buffer v /\
      edits (format_run H settings use_selection v) = edits v)) /\
  (forall (v : View) (fmt : string -> string),
     (forall inv code, stdin inv = Some code ->
        exists stderr, spawn H inv = Exited 0 (fmt code) stderr) ->
     (forall s, fmt (fmt s) = fmt s) ->
     let v1 := format_run H settings false v in
     let v2 := format_run H settings false v1 in
     buffer v2 = buffer v1 /\ edits v2 = edits v1).
Proof.
  split.
  - intros use_selection v bin region0 rest stdout stderr Hpy Hfind Hsel
      region Hspawn.
    rewrite (format_run_exit0 H settings use_selection v Hpy Hfind Hsel
               Hspawn).
    fold region. split.
    + intros Hne. apply String.eqb_neq in Hne. rewrite Hne.
      split; reflexivity.
    + intros ->. rewrite String.eqb_refl. split; reflexivity.
  - intros v fmt. apply format_twice.
Qed.

Lemma drop_cr_idem (s : string) : drop_cr (drop_cr s) = drop_cr s.
Proof.
  induction s as [|c r IH]; simpl; [reflexivity|].
  destruct (nat_of_ascii c =? 13)%nat eqn:E; simpl; [assumption|].
  rewrite E, IH. reflexivity.
Qed.

Lemma format_exit0_spec_witness :
  let settings := mkSettings None None None None in
  let v := example_view ("x = 1" ++ cr ++ newline) in
  let v1 := format_run format_host settings false v in
  let v2 := format_run format_host settings false v1 in
  (buffer v1 = "x = 1" ++ newline /\
   edits v1 = [(mkRegion 0 7, "x = 1" ++ newline)]) /\
  (buffer v2 = buffer v1 /\ edits v2 = edits v1).
Proof.
  intros settings v v1 v2.
  destruct (format_exit0_spec format_host settings) as [Hone Htwice].
  split.
  - refine (proj1 (@Hone false v "/usr/bin/ruff" (mkRegion 0 0) []
                     ("x = 1" ++ newline) "" _ _ _ _) _);
      [reflexivity | reflexivity | reflexivity | reflexivity | discriminate].
  - apply (Htwice v drop_cr).
    + intros inv code Hin. exists "". unfold format_host, Posix.host.
      cbn [spawn]. unfold stdin_tool. rewrite Hin. reflexivity.
    + exact drop_cr_idem.
Defined.

(** ** Lint: parse failures and the stored diagnostics *)

Lemma lint_invocation_erase (H : Host) (settings : Settings) (v : View)
  (ruff_binary : string) :
  lint_invocation H settings (erase_markers v) ruff_binary
  = lint_invocation H settings v ruff_binary.
Proof. reflexivity. Qed.

(** C1, as amended.  When the tool of a lint run exits with 1 and the
    decoder raises on its output, which is not empty, the run leaves the
    stored diagnostics and the buffer as they were; only the markers, erased
    when the run began, are gone.  It reports a parse failure when the
    decoder raised [ValueError], as it does on malformed text, and the
    exception itself when it raised another one, as it does on text nested
    too deeply. *)
Theorem lint_parse_failure (H : Host) (settings : Settings) (v : View)
  (ruff_binary output error_output : string) (e : exn) :
  is_python v = true ->
  find_ruff_binary H settings = inl ruff_binary ->
  spawn H (lint_invocation H settings v ruff_binary)
  = Exited 1 output error_output ->
  output <> "" ->
  json_loads H output = Raise e ->
  lint_run H settings v
  = say (match e with
         | ValueError | AttributeError => parse_failure
         | _ => error_exception e
         end) (erase_markers v) /\
  ruff_diagnostics (lint_run H settings v) = ruff_diagnostics v /\
  buffer (lint_run H settings v) = buffer v /\
  (e = ValueError ->
   lint_run H settings v = say parse_failure (erase_markers v) /\
   hd_error (log (lint_run H settings v)) = Some parse_failure) /\
  (e = RecursionError ->
   hd_error (log (lint_run H settings v))
   = Some (error_exception RecursionError)).
Proof.
  intros Hpy Hfind Hspawn Hne Hjson.
  assert (E : lint_run H settings v
              = say (match e with
                     | ValueError | AttributeError => parse_failure
                     | _ => error_exception e
                     end) (erase_markers v)).
  { unfold lint_run. rewrite Hpy, Hfind. cbn [negb].
    rewrite lint_invocation_erase, Hspawn. cbn [Z.eqb Pos.eqb].
    apply String.eqb_neq in Hne. rewrite Hne. cbn [negb].
    rewrite Hjson. cbn [bind]. destruct e; reflexivity. }
  rewrite E. split; [reflexivity|]. split; [reflexivity|].
  split; [reflexivity|]. split.
  - intros ->. split; reflexivity.
  - intros ->. reflexivity.
Qed.

Lemma lint_parse_failure_witness :
  let v := set_diagnostics (Some [stored_example]) (example_view "import os") in
  let v' := lint_run (lint_host (Exited 1 "ruff: internal error" ""))
              (mkSettings None None None None) v in
  ruff_diagnostics v' = Some [stored_example] /\
  log v' = [parse_failure].
Proof.
  cbv zeta.
  assert (Hne : "ruff: internal error" <> "") by discriminate.
  destruct (@lint_parse_failure
              (lint_host (Exited 1 "ruff: internal error" ""))
              (mkSettings None None None None)
              (set_diagnostics (Some [stored_example])
                 (example_view "import os"))
              "/usr/bin/ruff" "ruff: internal error" "" ValueError
              eq_refl eq_refl eq_refl Hne eq_refl)
    as (_ & Hstored & _ & Hvalue & _).
  split; [exact Hstored|].
  destruct (Hvalue eq_refl) as [Hrun _]. rewrite Hrun. reflexivity.
Defined.

(** Text nested more deeply than the decoder's recursion allows is valid
    JSON, yet the decoder raises on it, and the run reports the exception
    instead of a parse failure. *)
Lemma lint_deep_output :
  let output := String.concat "" (repeat "[" 1200) in
  let v := set_diagnostics (Some [stored_example]) (example_view "import os") in
  let v' := lint_run (lint_host (Exited 1 output ""))
              (mkSettings None None None None) v in
  Json.loads output = Raise RecursionError /\
  ruff_diagnostics v' = Some [stored_example] /\
  log v' = [error_exception RecursionError].
Proof. cbv zeta. vm_compute. repeat split; reflexivity. Qed.

(** The decoder accepts the constants [NaN] and [Infinity], which are not
    JSON; the run then fails on the decoded float, which is no list, and
    reports that exception instead of a parse failure. *)
Lemma lint_nan_output :
  let v := set_diagnostics (Some [stored_example]) (example_view "import os") in
  let v' := lint_run (lint_host (Exited 1 "NaN" ""))
              (mkSettings None None None None) v in
  Json.loads "NaN" = Ok (JFloat FNaN) /\
  ruff_diagnostics v' = Some [stored_example] /\
  log v' = [error_exception TypeError].
Proof. cbv zeta. vm_compute. repeat split; reflexivity. Qed.

(** With an empty output, on which the decoder would raise, the run takes
    the output for an empty list of issues. *)
Lemma lint_empty_output (H : Host) (settings : Settings) (v : View)
  (ruff_binary error_output : string) :
  is_python v = true ->
  find_ruff_binary H settings = inl ruff_binary ->
  spawn H (lint_invocation H settings v ruff_binary)
  = Exited 1 "" error_output ->
  lint_run H settings v
  = say (status_found 0) (set_diagnostics (Some []) (erase_markers v)).
Proof.
  intros Hpy Hfind Hspawn. unfold lint_run. rewrite Hpy, Hfind. cbn [negb].
  rewrite lint_invocation_erase, Hspawn. reflexivity.
Qed.

(** C1, as stated, fails on an empty output: the text is not valid JSON,
    yet no parse failure is reported and the stored diagnostic is replaced
    by the empty list. *)
Lemma lint_empty_output_replaces_stored :
  let H := lint_host (Exited 1 "" "") in
  let v := set_diagnostics (Some [stored_example]) (example_view "import os") in
  let v' := lint_run H (mkSettings None None None None) v in
  json_loads H "" = Raise ValueError /\
  ruff_diagnostics v = Some [stored_example] /\
  ruff_diagnostics v' = Some [] /\
  ruff_diagnostics v' <> ruff_diagnostics v /\
  log v' = [status_found 0] /\
  ~ In parse_failure (log v').
Proof.
  cbv zeta. repeat split; try reflexivity.
  - discriminate.
  - intros [E|[]]. discriminate.
Qed.

(** ** Lint: the span of an issue without end location *)

(** Inversion of a successful [bind]. *)
Lemma bind_ok {A B : Type} (r : result A) (k : A -> result B) (y : B) :
  bind r k = Ok y -> exists x, r = Ok x /\ k x = Ok y.
Proof. destruct r as [x|e]; simpl; [eauto | discriminate]. Qed.

Ltac invert_binds :=
  repeat match goal with
         | E : bind _ _ = Ok _ |- _ =>
             let x := fresh "x" in
             let Ex := fresh "Ex" in
             apply bind_ok in E; destruct E as (x & Ex & E)
         end.

(** What a stored diagnostic holds of the issue it was made from: the row
    and the column are the values under the issue's location, each 1 when
    the location lacks it, and the region begins at the point of that row
    and column, counted from 0. *)
Lemma diagnostic_of_inv (H : Host) (v : View) (diag : json) (d : StoredDiag) :
  diagnostic_of H v diag = Ok d ->
  exists (location : json) (r c end_point : Z),
    py_get diag "location" (JObj []) = Ok location /\
    py_get location "row" (JInt 1) = Ok (row d) /\
    py_get location "column" (JInt 1) = Ok (col d) /\
    py_int (row d) = Ok r /\ py_int (col d) = Ok c /\
    end_point_of H v diag (row d) (col d)
      (text_point H (buffer v) (r - 1) (c - 1)) = Ok end_point /\
    region d = mkRegion (text_point H (buffer v) (r - 1) (c - 1)) end_point.
Proof.
  intros Hd. unfold diagnostic_of in Hd. invert_binds.
  injection Hd as <-. cbn [row col region].
  do 4 eexists. repeat split; eassumption.
Qed.

(** What the code does for an issue without end location: the span begins
    at the point of the issue's location and ends where the word at that
    point ends; when the word region at the point is empty, it ends where
    the line of the point ends. *)
Lemma span_without_end_location (H : Host) (v : View) (diag : json)
  (end_location : json) (d : StoredDiag) :
  py_get diag "end_location" (JObj []) = Ok end_location ->
  truthy end_location = false ->
  diagnostic_of H v diag = Ok d ->
  exists (location : json) (r c point : Z),
    py_get diag "location" (JObj []) = Ok location /\
    py_get location "row" (JInt 1) = Ok (row d) /\
    py_get location "column" (JInt 1) = Ok (col d) /\
    py_int (row d) = Ok r /\ py_int (col d) = Ok c /\
    point = text_point H (buffer v) (r - 1) (c - 1) /\
    region d =
      mkRegion point
        (if empty (word H (buffer v) point)
         then end_ (line H (buffer v) point)
         else end_ (word H (buffer v) point)).
Proof.
  intros Hend Hfalse Hd.
  destruct (diagnostic_of_inv H v diag Hd)
    as (location & r & c & end_point & El & Er & Ec & Eri & Eci & Ee & Eregion).
  exists location, r, c, (text_point H (buffer v) (r - 1) (c - 1)).
  do 5 (split; [assumption|]). split; [reflexivity|].
  rewrite Eregion. f_equal.
  unfold end_point_of in Ee. rewrite Hend in Ee. cbn [bind] in Ee.
  rewrite Hfalse in Ee.
  destruct (empty (word H (buffer v)
                     (text_point H (buffer v) (r - 1) (c - 1))));
    injection Ee as <-; reflexivity.
Qed.

Lemma span_without_end_location_witness :
  match diagnostic_of (lint_host TimeoutExpired) (example_view "import os")
          (issue_at 1 3) with
  | Ok d => region d
  | Raise _ => mkRegion 0 0
  end = mkRegion 2 6.
Proof.
  destruct (diagnostic_of (lint_host TimeoutExpired)
              (example_view "import os") (issue_at 1 3)) as [d|e] eqn:E;
    [|discriminate E].
  destruct (@span_without_end_location (lint_host TimeoutExpired)
              (example_view "import os") (issue_at 1 3) JNull d
              eq_refl eq_refl E)
    as (location & r & c & point & El & Er & Ec & Eri & Eci & Ep & Eregion).
  injection E as <-.
  injection Eri as <-. injection Eci as <-. subst point. exact Eregion.
Defined.

(** C5.  The code misses the span in both cases.  On the buffer "import os"
    an issue at column 3 without end location is stored with the span 2..6,
    while the word at the point is 0..6; this holds for the whole lint run
    on the tool's text.  On the buffer "x = 1" an issue at column 3 finds no
    word at the point and is given the span 2..5, while the line is 0..5. *)
Theorem span_is_neither_word_nor_line :
  let H := lint_host
             (Exited 1
                (Json.text
                   "[{'code': 'F401', 'message': 'unused import', 'location': {'row': 1, 'column': 3}, 'end_location': null, 'url': ''}]")
                "") in
  (option_map (map region)
     (ruff_diagnostics
        (lint_run H (mkSettings None None None None)
           (example_view "import os")))
   = Some [mkRegion 2 6] /\
   word H "import os" 2 = mkRegion 0 6 /\
   empty (word H "import os" 2) = false) /\
  (match diagnostic_of H (example_view "x = 1") (issue_at 1 3) with
   | Ok d => region d
   | Raise _ => mkRegion 0 0
   end = mkRegion 2 5 /\
   empty (word H "x = 1" 2) = true /\
   line H "x = 1" 2 = mkRegion 0 5).
Proof. cbv zeta. repeat split; reflexivity. Qed.

(** ** Navigation *)

Section SortedFind.

Context {A : Type} (R : A -> A -> Prop) (p : A -> bool).
Hypothesis R_refl : forall x, R x x.

(** In a sorted list, the first element that satisfies a test is below
    every element that satisfies it. *)
Lemma find_sorted_first (l : list A) (d : A) :
  StronglySorted R l -> find p l = Some d ->
  In d l /\ p d = true /\ forall d', In d' l -> p d' = true -> R d d'.
Proof.
  induction 1 as [|x xs Hs IH Hall]; simpl; [discriminate|].
  destruct (p x) eqn:Px.
  - intros [= <-]. repeat split; auto.
    intros d' [<-|Hin] _; [apply R_refl|].
    rewrite Forall_forall in Hall. auto.
  - intros Hf. destruct (IH Hf) as (Hin & Pd & Hmin).
    repeat split; auto.
    intros d' [<-|Hin'] Pd'; [congruence | auto].
Qed.

Lemma StronglySorted_snoc (l : list A) (x : A) :
  StronglySorted R l -> Forall (fun y => R y x) l ->
  StronglySorted R (l ++ [x]).
Proof.
  induction 1 as [|y ys Hs IH Hall]; simpl; intros Hx.
  - constructor; constructor.
  - inversion Hx as [|? ? Hyx Hys]; subst.
    constructor; [apply IH; assumption|].
    apply Forall_app. split; [assumption | constructor; auto].
Qed.

End SortedFind.

Lemma StronglySorted_rev {A : Type} (R : A -> A -> Prop) (l : list A) :
  StronglySorted R l -> StronglySorted (fun x y => R y x) (rev l).
Proof.
  induction 1 as [|x xs Hs IH Hall]; simpl; [constructor|].
  apply StronglySorted_snoc; [assumption|].
  apply Forall_rev. assumption.
Qed.

(** What [next_diag] returns on any stored list: the first diagnostic, in
    stored order, that starts after the position, else the first one. *)
Lemma next_diag_first (ds : list StoredDiag) (pos : Z) :
  next_diag ds pos =
    match find (fun d => pos <? start d) ds with
    | Some d => Some d
    | None => hd_error ds
    end.
Proof.
  unfold next_diag.
  assert (E : find (fun diag => begin (region diag) >? pos) ds
              = find (fun d => pos <? start d) ds).
  { induction ds as [|d rest IH]; simpl; [reflexivity|].
    unfold start at 1. rewrite Z.gtb_ltb, IH. reflexivity. }
  rewrite E. reflexivity.
Qed.

(** What [prev_diag] returns on any stored list: the last diagnostic, in
    stored order, that starts before the position, else the last one. *)
Lemma prev_diag_last (ds : list StoredDiag) (pos : Z) :
  prev_diag ds pos =
    match find (fun d => start d <? pos) (rev ds) with
    | Some d => Some d
    | None => hd_error (rev ds)
    end.
Proof. reflexivity. Qed.

(** Navigation over diagnostics stored in the order of their starts. *)
Lemma navigation_sorted (ds : list StoredDiag) (pos : Z) :
  in_start_order ds ->
  ((exists d, In d ds /\ pos < start d) ->
   exists d, next_diag ds pos = Some d /\ In d ds /\ pos < start d /\
             forall d', In d' ds -> pos < start d' -> start d <= start d') /\
  ((forall d, In d ds -> start d <= pos) ->
   next_diag ds pos = hd_error ds) /\
  ((exists d, In d ds /\ start d < pos) ->
   exists d, prev_diag ds pos = Some d /\ In d ds /\ start d < pos /\
             forall d', In d' ds -> start d' < pos -> start d' <= start d) /\
  ((forall d, In d ds -> pos <= start d) ->
   prev_diag ds pos = hd_error (rev ds)) /\
  (ds = [] -> next_diag ds pos = None /\ prev_diag ds pos = None).
Proof.
  intros Hs. repeat split.
  - intros (d0 & Hin0 & Hlt0). rewrite next_diag_first.
    destruct (find (fun d => pos <? start d) ds) as [d|] eqn:Hf.
    + destruct (find_sorted_first (fun d => pos <? start d)
                  (fun x => Z.le_refl (start x)) Hs Hf)
        as (Hin & Pd & Hmin).
      exists d. repeat split; auto.
      * apply Z.ltb_lt. exact Pd.
      * intros d' Hin' Hlt'. apply Hmin; [assumption|].
        apply Z.ltb_lt. exact Hlt'.
    + apply (find_none _ _ Hf) in Hin0. apply Z.ltb_ge in Hin0. lia.
  - intros Hall. rewrite next_diag_first.
    destruct (find (fun d => pos <? start d) ds) as [d|] eqn:Hf;
      [|reflexivity].
    apply find_some in Hf. destruct Hf as [Hin Pd].
    apply Z.ltb_lt in Pd. specialize (Hall d Hin). lia.
  - intros (d0 & Hin0 & Hlt0). rewrite prev_diag_last.
    destruct (find (fun d => start d <? pos) (rev ds)) as [d|] eqn:Hf.
    + destruct (find_sorted_first (R := fun x y => start y <= start x)
                  (fun diag => start diag <? pos)
                  (fun x => Z.le_refl (start x))
                  (StronglySorted_rev Hs) Hf) as (Hin & Pd & Hmax).
      exists d. repeat split.
      * apply in_rev. exact Hin.
      * apply Z.ltb_lt. exact Pd.
      * intros d' Hin' Hlt'. apply Hmax; [apply in_rev in Hin'; exact Hin'|].
        apply Z.ltb_lt. exact Hlt'.
    + apply in_rev in Hin0. apply (find_none _ _ Hf) in Hin0.
      apply Z.ltb_ge in Hin0. lia.
  - intros Hall. rewrite prev_diag_last.
    destruct (find (fun d => start d <? pos) (rev ds)) as [d|] eqn:Hf;
      [|reflexivity].
    apply find_some in Hf. destruct Hf as [Hin Pd].
    apply Z.ltb_lt in Pd. apply in_rev in Hin. specialize (Hall d Hin). lia.
  - subst ds. reflexivity.
  - subst ds. reflexivity.
Qed.

(** A navigation command on a view without stored diagnostics only says
    so. *)
Lemma navigate_empty
  (pick : list StoredDiag -> Z -> option StoredDiag) (v : View) :
  get (ruff_diagnostics v) [] = [] ->
  navigate pick v = say (status_message "PythonRuff: No errors found") v.
Proof. intros E. unfold navigate. rewrite E. reflexivity. Qed.

(** Otherwise it moves the selection to the diagnostic picked for the start
    of the first selection. *)
Lemma navigate_goto
  (pick : list StoredDiag -> Z -> option StoredDiag) (v : View)
  (ds : list StoredDiag) (region0 : Region) (rest : list Region)
  (d : StoredDiag) :
  get (ruff_diagnostics v) [] = ds -> ds <> [] ->
  sel v = region0 :: rest ->
  pick ds (begin region0) = Some d ->
  navigate pick v = goto d v.
Proof.
  intros E Hne Hsel Hpick. unfold navigate. rewrite E, Hsel.
  destruct ds as [|d0 ds']; [contradiction|]. rewrite Hpick. reflexivity.
Qed.

(** C3, as amended.  On stored diagnostics that are in the order of their
    starts, next returns the diagnostic with the smallest start strictly
    after the position and previous the one with the largest start strictly
    before it; when no diagnostic qualifies, next wraps to the first and
    previous to the last; without stored diagnostics both commands select
    nothing.  With starts 10, 50, 90 and the position 90, next yields the
    diagnostic at 10 and previous the one at 50. *)
Theorem navigation_in_start_order :
  (forall (ds : list StoredDiag) (pos : Z),
     in_start_order ds ->
     ((exists d, In d ds /\ pos < start d) ->
      exists d, next_diag ds pos = Some d /\ In d ds /\ pos < start d /\
                forall d', In d' ds -> pos < start d' -> start d <= start d') /\
     ((forall d, In d ds -> start d <= pos) ->
      next_diag ds pos = hd_error ds) /\
     ((exists d, In d ds /\ start d < pos) ->
      exists d, prev_diag ds pos = Some d /\ In d ds /\ start d < pos /\
                forall d', In d' ds -> start d' < pos -> start d' <= start d) /\
     ((forall d, In d ds -> pos <= start d) ->
      prev_diag ds pos = hd_error (rev ds)) /\
     (ds = [] -> next_diag ds pos = None /\ prev_diag ds pos = None)) /\
  (forall v : View,
     get (ruff_diagnostics v) [] = [] ->
     sel (next_error_run v) = sel v /\ sel (previous_error_run v) = sel v) /\
  next_diag [diag_at 10; diag_at 50; diag_at 90] 90 = Some (diag_at 10) /\
  prev_diag [diag_at 10; diag_at 50; diag_at 90] 90 = Some (diag_at 50).
Proof.
  split; [exact navigation_sorted|]. split; [|split; reflexivity].
  intros v E. unfold next_error_run, previous_error_run.
  rewrite !(navigate_empty _ v E). split; reflexivity.
Qed.

Lemma three_in_start_order :
  in_start_order [diag_at 10; diag_at 50; diag_at 90].
Proof.
  unfold in_start_order.
  repeat (constructor; [|repeat (constructor; [unfold start, begin; simpl; lia|]);
                         constructor]).
  constructor.
Qed.

Lemma navigation_in_start_order_witness :
  next_diag [diag_at 10; diag_at 50; diag_at 90] 95
  = Some (diag_at 10) /\
  sel (next_error_run (example_view "import os")) = [mkRegion 0 0].
Proof.
  destruct navigation_in_start_order as (Hsorted & Hempty & _).
  split.
  - destruct (Hsorted [diag_at 10; diag_at 50; diag_at 90] 95
                three_in_start_order) as (_ & Hwrap & _).
    apply Hwrap. intros d [<-|[<-|[<-|[]]]]; unfold start, begin; simpl; lia.
  - exact (proj1 (Hempty (example_view "import os") eq_refl)).
Defined.

(** C3, as stated, fails on a stored list that is not in the order of its
    starts: with starts 50, 10, 90 and the position 5, next yields the
    diagnostic at 50, though the one at 10 is nearer; with the position 95,
    previous yields the diagnostic at 90 only because it comes last, and
    with starts 50, 90, 10 it yields the one at 10. *)
Lemma next_is_first_not_nearest :
  next_diag [diag_at 50; diag_at 10; diag_at 90] 5 = Some (diag_at 50) /\
  In (diag_at 10) [diag_at 50; diag_at 10; diag_at 90] /\
  5 < start (diag_at 10) < start (diag_at 50) /\
  prev_diag [diag_at 50; diag_at 90; diag_at 10] 95 = Some (diag_at 10) /\
  In (diag_at 90) [diag_at 50; diag_at 90; diag_at 10] /\
  start (diag_at 10) < start (diag_at 90) < 95.
Proof.
  repeat split; try reflexivity; simpl; auto.
Qed.

(** ** Fix never empties the buffer *)

(** X15.  Whatever the tool does, a fix run does not turn a non-empty buffer into
    an empty one: the only text it writes is a non-empty output. *)
Lemma fix_never_blanks (H : Host) (settings : Settings) (v : View) :
  buffer v <> "" -> buffer (fix_run H settings v) <> "".
Proof.
  intros Hne. unfold fix_run.
  destruct (is_python v); simpl; [|assumption].
  destruct (find_ruff_binary H settings) as [bin|msg]; [|assumption].
  destruct (spawn H _) as [rc out err| |msg]; try assumption.
  destruct ((rc =? 0) || (rc =? 1)); [|assumption].
  destruct (out =? "")%string eqn:Eo; [assumption|].
  destruct (out =? substr v (whole v))%string; [assumption|].
  cbn [negb andb say buffer]. rewrite buffer_replace_whole.
  apply String.eqb_neq. exact Eo.
Qed.

(** * Further properties of the commands *)

(** ** Lint: what a run stores, draws and says *)

Lemma all_diagnostics_of_erase (H : Host) (v : View) (diags : list json) :
  all_diagnostics_of H (erase_markers v) diags = all_diagnostics_of H v diags.
Proof.
  induction diags as [|diag rest IH]; [reflexivity|].
  cbn [all_diagnostics_of]. rewrite IH. reflexivity.
Qed.

(** The stored list follows the issues one by one, in the tool's order. *)
Lemma all_diagnostics_of_pointwise (H : Host) (v : View) (diags : list json)
  (ds : list StoredDiag) :
  all_diagnostics_of H v diags = Ok ds <->
  Forall2 (fun diag d => diagnostic_of H v diag = Ok d) diags ds.
Proof.
  revert ds. induction diags as [|diag rest IH]; intros ds; simpl.
  - split.
    + intros [= <-]. constructor.
    + intros F. inversion F. reflexivity.
  - split.
    + intros E. invert_binds. injection E as <-.
      constructor; [assumption | apply IH; assumption].
    + intros F. inversion F as [|? d ? ds' Hd Hrest]; subst.
      rewrite Hd. cbn [bind]. apply IH in Hrest. rewrite Hrest. reflexivity.
Qed.

(** The three severities split the stored list. *)
Lemma regions_of_partition (ds : list StoredDiag) :
  (List.length (regions_of error ds) + List.length (regions_of warning ds)
   + List.length (regions_of info ds))%nat = List.length ds.
Proof.
  unfold regions_of. rewrite !length_map.
  induction ds as [|d rest IH]; [reflexivity|].
  cbn [filter]. destruct (severity d); cbn [severity_eqb List.length]; lia.
Qed.

(** Markers drawn for a list of diagnostics on a view whose markers were
    erased: each key holds the regions of its severity. *)
Lemma drawn_regions (v : View) (ds : list StoredDiag) :
  let v' :=
    add_regions_if "ruff_info" (regions_of info ds)
      (add_regions_if "ruff_warnings" (regions_of warning ds)
         (add_regions_if "ruff_errors" (regions_of error ds)
            (set_diagnostics (Some ds) (erase_markers v)))) in
  regions v' "ruff_errors" = regions_of error ds /\
  regions v' "ruff_warnings" = regions_of warning ds /\
  regions v' "ruff_info" = regions_of info ds /\
  ruff_diagnostics v' = Some ds /\
  buffer v' = buffer v /\ edits v' = edits v /\ sel v' = sel v /\
  log v' = log v /\ exec_panel v' = exec_panel v.
Proof.
  cbv zeta.
  destruct (regions_of error ds), (regions_of warning ds),
    (regions_of info ds); repeat split; reflexivity.
Qed.

(** X1.  When the tool exits with 1 and prints a list of issues that all turn
    into diagnostics, the run stores them in the tool's order, draws each
    under the key of its severity and reports their number. *)
Theorem lint_stores_issues (H : Host) (settings : Settings) (v : View)
  (ruff_binary output error_output : string) (diags : list json)
  (ds : list StoredDiag) :
  is_python v = true ->
  find_ruff_binary H settings = inl ruff_binary ->
  spawn H (lint_invocation H settings v ruff_binary)
  = Exited 1 output error_output ->
  output <> "" ->
  json_loads H output = Ok (JArr diags) ->
  Forall2 (fun diag d => diagnostic_of H v diag = Ok d) diags ds ->
  let v' := lint_run H settings v in
  ruff_diagnostics v' = Some ds /\
  regions v' "ruff_errors" = regions_of error ds /\
  regions v' "ruff_warnings" = regions_of warning ds /\
  regions v' "ruff_info" = regions_of info ds /\
  log v' = status_found (List.length ds) :: log v /\
  exec_panel v' = (match ds with [] => exec_panel v | _ => Some ds end).
Proof.
  intros Hpy Hfind Hspawn Hne Hjson Hall v'.
  apply all_diagnostics_of_pointwise in Hall.
  assert (E : v' =
    _show_in_exec_panel ds
      (say (status_found (List.length ds))
         (add_regions_if "ruff_info" (regions_of info ds)
            (add_regions_if "ruff_warnings" (regions_of warning ds)
               (add_regions_if "ruff_errors" (regions_of error ds)
                  (set_diagnostics (Some ds) (erase_markers v))))))).
  { subst v'. unfold lint_run. rewrite Hpy, Hfind. cbn [negb].
    rewrite lint_invocation_erase, Hspawn. cbn [Z.eqb Pos.eqb].
    apply String.eqb_neq in Hne. rewrite Hne. cbn [negb]. rewrite Hjson.
    unfold _show_diagnostics. cbn [py_iter bind].
    rewrite all_diagnostics_of_erase, Hall. cbn [bind].
    rewrite regions_of_partition. reflexivity. }
  pose proof (drawn_regions v ds) as D. cbv zeta in D.
  destruct D as (D1 & D2 & D3 & D4 & _ & _ & _ & D8 & D9).
  rewrite E. destruct ds as [|d ds']; cbn [_show_in_exec_panel];
    repeat split; cbn; try assumption; try (f_equal; assumption).
Qed.

Lemma lint_stores_issues_witness :
  let H := lint_host (Exited 1 two_issues_text "") in
  let v' := lint_run H (mkSettings None None None None)
              (example_view "import os") in
  option_map (map region) (ruff_diagnostics v')
  = Some [mkRegion 7 9; mkRegion 9 9] /\
  regions v' "ruff_errors" = [mkRegion 7 9] /\
  regions v' "ruff_warnings" = [mkRegion 9 9] /\
  log v' = [status_found 2].
Proof.
  cbv zeta.
  assert (Hne : two_issues_text <> "") by discriminate.
  assert (Hall :
    Forall2
      (fun diag d =>
         diagnostic_of (lint_host (Exited 1 two_issues_text ""))
           (example_view "import os") diag = Ok d)
      [JObj [("code", JStr "F401"); ("message", JStr "unused import");
             ("location", JObj [("row", JInt 1); ("column", JInt 8)]);
             ("end_location", JObj [("row", JInt 1); ("column", JInt 10)]);
             ("url", JStr "u")];
       JObj [("code", JStr "W291"); ("message", JStr "trailing whitespace");
             ("location", JObj [("row", JInt 1); ("column", JInt 10)])]]
      [mkDiag (mkRegion 7 9) (JStr "F401") (JStr "unused import") (JStr "u")
         error (JInt 1) (JInt 8);
       mkDiag (mkRegion 9 9) (JStr "W291") (JStr "trailing whitespace")
         (JStr "") warning (JInt 1) (JInt 10)])
    by (repeat constructor).
  destruct (@lint_stores_issues
              (lint_host (Exited 1 two_issues_text ""))
              (mkSettings None None None None)
              (example_view "import os") "/usr/bin/ruff"
              two_issues_text "" _ _ eq_refl eq_refl eq_refl Hne eq_refl Hall)
    as (P1 & P2 & P3 & _ & P5 & _).
  split; [|split; [|split]].
  - rewrite P1. reflexivity.
  - rewrite P2. reflexivity.
  - rewrite P3. reflexivity.
  - rewrite P5. reflexivity.
Defined.

(** X2.  A lint run that fails keeps the stored diagnostics, erases the markers
    all the same and reports one error. *)
Theorem lint_failure_keeps_stored (H : Host) (settings : Settings) (v : View)
  (ruff_binary : string) :
  is_python v = true ->
  find_ruff_binary H settings = inl ruff_binary ->
  lint_fails H v (spawn H (lint_invocation H settings v ruff_binary)) ->
  let v' := lint_run H settings v in
  ruff_diagnostics v' = ruff_diagnostics v /\
  regions v' "ruff_errors" = [] /\
  regions v' "ruff_warnings" = [] /\
  regions v' "ruff_info" = [] /\
  exists m, log v' = m :: log v /\
            match m with
            | error_message _ | error_exception _ => True
            | _ => False
            end.
Proof.
  intros Hpy Hfind Hfail v'. subst v'. unfold lint_run.
  rewrite Hpy, Hfind. cbn [negb]. rewrite lint_invocation_erase.
  destruct (spawn H (lint_invocation H settings v ruff_binary))
    as [rc out err| |msg]; cbn [lint_fails] in Hfail.
  - destruct Hfail as [H0 H1]. apply Z.eqb_neq in H0. rewrite H0.
    destruct (Z.eqb_spec rc 1) as [->|Hn1].
    + destruct (H1 eq_refl) as [Hne Hshow].
      apply String.eqb_neq in Hne. rewrite Hne. cbn [negb].
      destruct (json_loads H out) as [diagnostics|e]; cbn [bind].
      * destruct Hshow as [e He]. rewrite He.
        destruct e; repeat split; eexists; split; try reflexivity; exact I.
      * destruct e; repeat split; eexists; split; try reflexivity; exact I.
    + repeat split; eexists; split; try reflexivity; exact I.
  - repeat split; eexists; split; try reflexivity; exact I.
  - repeat split; eexists; split; try reflexivity; exact I.
Qed.

Lemma lint_failure_keeps_stored_witness :
  let H := lint_host (Exited 1 (Json.text "{'error': 'boom'}") "") in
  let v := set_regions "ruff_errors" [mkRegion 0 6]
             (set_diagnostics (Some [stored_example])
                (example_view "import os")) in
  let v' := lint_run H (mkSettings None None None None) v in
  ruff_diagnostics v' = Some [stored_example] /\
  regions v' "ruff_errors" = [] /\
  log v' = [parse_failure].
Proof.
  cbv zeta.
  assert (Hfail :
    lint_fails (lint_host (Exited 1 (Json.text "{'error': 'boom'}") ""))
      (set_regions "ruff_errors" [mkRegion 0 6]
         (set_diagnostics (Some [stored_example]) (example_view "import os")))
      (Exited 1 (Json.text "{'error': 'boom'}") "")).
  { split; [discriminate|]. intros _. split; [discriminate|].
    exists AttributeError. reflexivity. }
  destruct (@lint_failure_keeps_stored
              (lint_host (Exited 1 (Json.text "{'error': 'boom'}") ""))
              (mkSettings None None None None)
              (set_regions "ruff_errors" [mkRegion 0 6]
                 (set_diagnostics (Some [stored_example])
                    (example_view "import os")))
              "/usr/bin/ruff" eq_refl eq_refl Hfail)
    as (P1 & P2 & _).
  split; [exact P1 | split; [exact P2 | reflexivity]].
Defined.

(** What [_show_diagnostics] leaves alone, and what it adds to the log. *)
Lemma show_diagnostics_frame (H : Host) (v v' : View) (diagnostics : json) :
  _show_diagnostics H v diagnostics = Ok v' ->
  buffer v' = buffer v /\ edits v' = edits v /\ sel v' = sel v /\
  exists n, log v' = status_found n :: log v.
Proof.
  unfold _show_diagnostics. intros E. invert_binds. injection E as <-.
  match goal with
  | |- context [_show_in_exec_panel ?ds _] =>
      destruct ds; cbn [_show_in_exec_panel];
      destruct (regions_of error _), (regions_of warning _),
        (regions_of info _);
      repeat split; eexists; reflexivity
  end.
Qed.

(** The frame of a lint run: buffer, write log and selection stay, the log
    grows by one message. *)
Lemma lint_run_frame (H : Host) (settings : Settings) (v : View) :
  buffer (lint_run H settings v) = buffer v /\
  edits (lint_run H settings v) = edits v /\
  sel (lint_run H settings v) = sel v /\
  exists m, log (lint_run H settings v) = m :: log v.
Proof.
  unfold lint_run.
  destruct (is_python v); cbn [negb];
    [|repeat split; eexists; reflexivity].
  destruct (find_ruff_binary H settings) as [bin|msg];
    [|repeat split; eexists; reflexivity].
  destruct (spawn H _) as [rc out err| |msg];
    try (repeat split; eexists; reflexivity).
  destruct (rc =? 0); [repeat split; eexists; reflexivity|].
  destruct (rc =? 1); [|repeat split; eexists; reflexivity].
  destruct (if negb (out =? "")%string then json_loads H out
            else Ok (JArr [])) as [diagnostics|e]; cbn [bind];
    [|destruct e; repeat split; eexists; reflexivity].
  destruct (_show_diagnostics H (erase_markers v) diagnostics)
    as [v'|e] eqn:E.
  - apply show_diagnostics_frame in E.
    destruct E as (Eb & Ee & Es & n & El).
    rewrite Eb, Ee, Es, El. repeat split. eexists. reflexivity.
  - destruct e; repeat split; eexists; reflexivity.
Qed.

(** X3.  A lint run never writes to the buffer and never moves the selection;
    whatever happens, it tells the user exactly one thing. *)
Theorem lint_never_edits (H : Host) (settings : Settings) (v : View) :
  buffer (lint_run H settings v) = buffer v /\
  edits (lint_run H settings v) = edits v /\
  sel (lint_run H settings v) = sel v /\
  exists m, log (lint_run H settings v) = m :: log v.
Proof.
  destruct (lint_run_frame H settings v) as (Eb & Ee & Es & m & El).
  split; [exact Eb | split; [exact Ee | split; [exact Es|]]].
  exists m. exact El.
Qed.

(** X4.  When the tool exits with 0, the stored diagnostics and the three sets
    of markers are gone. *)
Theorem lint_exit0_clears (H : Host) (settings : Settings) (v : View)
  (ruff_binary output error_output : string) :
  is_python v = true ->
  find_ruff_binary H settings = inl ruff_binary ->
  spawn H (lint_invocation H settings v ruff_binary)
  = Exited 0 output error_output ->
  let v' := lint_run H settings v in
  ruff_diagnostics v' = None /\
  regions v' "ruff_errors" = [] /\
  regions v' "ruff_warnings" = [] /\
  regions v' "ruff_info" = [] /\
  (forall point, on_hover v' point true true = None) /\
  log (next_error_run v')
  = status_message "PythonRuff: No errors found" :: log v'.
Proof.
  intros Hpy Hfind Hspawn v'.
  assert (E : v' = say (status_message "PythonRuff: No issues found")
                     (set_diagnostics None (erase_markers (erase_markers v)))).
  { subst v'. unfold lint_run. rewrite Hpy, Hfind. cbn [negb].
    rewrite lint_invocation_erase, Hspawn. reflexivity. }
  rewrite E. repeat split; reflexivity.
Qed.

Lemma lint_exit0_clears_witness :
  let v := set_regions "ruff_errors" [mkRegion 0 6]
             (set_diagnostics (Some [stored_example])
                (example_view "import os")) in
  ruff_diagnostics v = Some [stored_example] /\
  ruff_diagnostics
    (lint_run (lint_host (Exited 0 "" "")) (mkSettings None None None None) v)
  = None /\
  regions
    (lint_run (lint_host (Exited 0 "" "")) (mkSettings None None None None) v)
    "ruff_errors" = [].
Proof.
  cbv zeta.
  destruct (@lint_exit0_clears (lint_host (Exited 0 "" ""))
              (mkSettings None None None None)
              (set_regions "ruff_errors" [mkRegion 0 6]
                 (set_diagnostics (Some [stored_example])
                    (example_view "import os")))
              "/usr/bin/ruff" "" "" eq_refl eq_refl eq_refl)
    as (P1 & P2 & _).
  split; [reflexivity | split; [exact P1 | exact P2]].
Defined.

(** ** Lint: how an issue becomes a stored diagnostic *)

(** X5.  The span of an issue with an end location runs between the two
    locations, each translated from the tool's 1-based row and column to the
    editor's 0-based ones: it begins at the row and column of the issue's
    location, which are the ones stored, and ends at those of the end
    location; a row or column missing from the end location is taken from the
    start location. *)
Theorem span_with_end_location (H : Host) (v : View) (diag : json)
  (kv : list (string * json)) (d : StoredDiag) :
  py_get diag "end_location" (JObj []) = Ok (JObj kv) ->
  kv <> [] ->
  diagnostic_of H v diag = Ok d ->
  exists (location : json) (r c er ec : Z),
    py_get diag "location" (JObj []) = Ok location /\
    py_get location "row" (JInt 1) = Ok (row d) /\
    py_get location "column" (JInt 1) = Ok (col d) /\
    py_int (row d) = Ok r /\ py_int (col d) = Ok c /\
    py_int (get (assoc "row" kv) (row d)) = Ok er /\
    py_int (get (assoc "column" kv) (col d)) = Ok ec /\
    region d =
      mkRegion (text_point H (buffer v) (r - 1) (c - 1))
               (text_point H (buffer v) (er - 1) (ec - 1)).
Proof.
  intros Hend Hne Hd.
  destruct (diagnostic_of_inv H v diag Hd)
    as (location & r & c & end_point & El & Er & Ec & Eri & Eci & Ee & Eregion).
  unfold end_point_of in Ee. rewrite Hend in Ee. cbn [bind] in Ee.
  assert (Ht : truthy (JObj kv) = true)
    by (destruct kv; [contradiction | reflexivity]).
  rewrite Ht in Ee. cbn [py_get bind] in Ee.
  destruct (py_int (match assoc "row" kv with
                    | Some v0 => v0
                    | None => row d
                    end)) as [er|] eqn:Eer; [|discriminate Ee].
  destruct (py_int (match assoc "column" kv with
                    | Some v0 => v0
                    | None => col d
                    end)) as [ec|] eqn:Eec; [|discriminate Ee].
  cbn [bind] in Ee. injection Ee as <-.
  exists location, r, c, er, ec.
  do 5 (split; [assumption|]).
  split; [exact Eer|]. split; [exact Eec|]. exact Eregion.
Qed.

Lemma span_with_end_location_witness :
  match diagnostic_of (lint_host TimeoutExpired) (example_view "import os")
          (JObj [("location", JObj [("row", JInt 1); ("column", JInt 8)]);
                 ("end_location", JObj [("column", JInt 10)])]) with
  | Ok d => region d
  | Raise _ => mkRegion 0 0
  end = mkRegion 7 9.
Proof.
  destruct (diagnostic_of (lint_host TimeoutExpired)
              (example_view "import os")
              (JObj [("location", JObj [("row", JInt 1); ("column", JInt 8)]);
                     ("end_location", JObj [("column", JInt 10)])]))
    as [d|e] eqn:E; [|discriminate E].
  assert (Hne : [("column", JInt 10)] <> []) by discriminate.
  destruct (@span_with_end_location (lint_host TimeoutExpired)
              (example_view "import os")
              (JObj [("location", JObj [("row", JInt 1); ("column", JInt 8)]);
                     ("end_location", JObj [("column", JInt 10)])])
              [("column", JInt 10)] d eq_refl Hne E)
    as (location & r & c & er & ec & El & Er & Ec & Eri & Eci & Eer & Eec
        & Eregion).
  injection E as <-.
  injection Eri as <-. injection Eci as <-.
  injection Eer as <-. injection Eec as <-. exact Eregion.
Defined.

(** X6.  An issue object that has none of the keys the plugin reads is stored
    as an error at row 1, column 1, with an empty code, message and url. *)
Theorem issue_without_keys (H : Host) (v : View) (kv : list (string * json)) :
  assoc "location" kv = None -> assoc "end_location" kv = None ->
  assoc "code" kv = None -> assoc "message" kv = None ->
  assoc "url" kv = None ->
  exists end_point,
    diagnostic_of H v (JObj kv)
    = Ok (mkDiag (mkRegion (text_point H (buffer v) 0 0) end_point)
            (JStr "") (JStr "") (JStr "") error (JInt 1) (JInt 1)).
Proof.
  intros Hl He Hc Hm Hu. unfold diagnostic_of, end_point_of.
  cbn [py_get]. rewrite Hl, He, Hc, Hm, Hu. cbn.
  destruct (empty (word H (buffer v) (text_point H (buffer v) 0 0)));
    eexists; reflexivity.
Qed.

Lemma issue_without_keys_witness :
  diagnostic_of (lint_host TimeoutExpired) (example_view "import os")
    (JObj [("filename", JStr "file.py")])
  = Ok (mkDiag (mkRegion 0 6) (JStr "") (JStr "") (JStr "") error
          (JInt 1) (JInt 1)).
Proof.
  destruct (@issue_without_keys (lint_host TimeoutExpired)
              (example_view "import os") [("filename", JStr "file.py")]
              eq_refl eq_refl eq_refl eq_refl eq_refl) as [end_point E].
  rewrite E. injection E as <-. reflexivity.
Defined.

(** X7.  The severity kept with a stored diagnostic is the classifier's verdict
    on the code kept with it, and the three marker lists hold each region
    under the key of that verdict only. *)
Theorem stored_severity_consistent (H : Host) (v : View) (diags : list json)
  (ds : list StoredDiag) :
  all_diagnostics_of H v diags = Ok ds ->
  Forall (fun d => _get_severity (code d) = Ok (severity d)) ds /\
  forall s r, In r (regions_of s ds) <->
              exists d, In d ds /\ severity d = s /\ region d = r.
Proof.
  intros Hall. split.
  - apply all_diagnostics_of_pointwise in Hall.
    induction Hall as [|diag d rest ds' Hd Hrest IH]; constructor;
      [|assumption].
    unfold diagnostic_of in Hd. invert_binds. injection Hd as <-.
    cbn [code severity]. assumption.
  - intros s r. unfold regions_of. rewrite in_map_iff. split.
    + intros (d & Er & Hin). apply filter_In in Hin. destruct Hin as [Hin Es].
      exists d. repeat split; auto.
      destruct (severity d), s; simpl in Es; congruence.
    + intros (d & Hin & Es & Er). exists d. split; [assumption|].
      apply filter_In. split; [assumption|].
      rewrite Es. destruct s; reflexivity.
Qed.

Lemma stored_severity_consistent_witness :
  Forall (fun d => _get_severity (code d) = Ok (severity d))
    [mkDiag (mkRegion 0 6) (JStr "W291") (JStr "") (JStr "") warning
       (JInt 1) (JInt 1)].
Proof.
  exact (proj1 (@stored_severity_consistent (lint_host TimeoutExpired)
                  (example_view "import os")
                  [JObj [("code", JStr "W291")]]
                  [mkDiag (mkRegion 0 6) (JStr "W291") (JStr "") (JStr "")
                     warning (JInt 1) (JInt 1)]
                  eq_refl)).
Defined.

(** ** Format and fix: the only writes *)

(** X11.  A format run writes to the buffer at most once, and only the output of
    a tool that exited with 0 and printed something other than the text of
    the region. *)
Theorem format_writes_only_on_exit0 (H : Host) (settings : Settings)
  (use_selection : bool) (v : View) :
  let v' := format_run H settings use_selection v in
  (edits v' = edits v /\ buffer v' = buffer v) \/
  exists ruff_binary region0 rest stdout stderr,
    find_ruff_binary H settings = inl ruff_binary /\
    sel v = region0 :: rest /\
    spawn H (format_invocation H settings v ruff_binary
               (substr v (format_region use_selection v region0)))
    = Exited 0 stdout stderr /\
    stdout <> substr v (format_region use_selection v region0) /\
    edits v' = (format_region use_selection v region0, stdout) :: edits v.
Proof.
  cbv zeta. unfold format_run.
  destruct (is_python v); cbn [negb]; [|left; split; reflexivity].
  destruct (find_ruff_binary H settings) as [bin|msg];
    [|left; split; reflexivity].
  destruct (sel v) as [|region0 rest]; [left; split; reflexivity|].
  cbv zeta.
  destruct (spawn H _) as [rc out err| |msg] eqn:Es;
    try (left; split; reflexivity).
  destruct (Z.eqb_spec rc 0) as [->|Hn]; [|left; split; reflexivity].
  destruct (out =? substr v (format_region use_selection v region0))%string
    eqn:Eo; cbn [negb]; [left; split; reflexivity|].
  right. exists bin, region0, rest, out, err.
  repeat split; try assumption; try reflexivity.
  apply String.eqb_neq. exact Eo.
Qed.

(** X12.  A fix run writes to the buffer at most once: the whole buffer becomes
    the non-empty output of a tool that exited with 0 or 1 and printed
    something other than the buffer. *)
Theorem fix_writes_only_fixed_code (H : Host) (settings : Settings)
  (v : View) :
  let v' := fix_run H settings v in
  (edits v' = edits v /\ buffer v' = buffer v) \/
  exists ruff_binary returncode stdout stderr,
    find_ruff_binary H settings = inl ruff_binary /\
    spawn H (fix_invocation H settings v ruff_binary (buffer v))
    = Exited returncode stdout stderr /\
    (returncode = 0 \/ returncode = 1) /\
    stdout <> "" /\ stdout <> buffer v /\
    edits v' = (whole v, stdout) :: edits v /\
    buffer v' = stdout.
Proof.
  cbv zeta. unfold fix_run. rewrite substr_whole.
  destruct (is_python v); cbn [negb]; [|left; split; reflexivity].
  destruct (find_ruff_binary H settings) as [bin|msg];
    [|left; split; reflexivity].
  destruct (spawn H _) as [rc out err| |msg] eqn:Es;
    try (left; split; reflexivity).
  destruct ((rc =? 0) || (rc =? 1)) eqn:Erc; [|left; split; reflexivity].
  destruct (out =? "")%string eqn:Eo; cbn [negb andb];
    [left; split; reflexivity|].
  destruct (out =? buffer v)%string eqn:Eb; cbn [negb];
    [left; split; reflexivity|].
  right. exists bin, rc, out, err.
  repeat split; try assumption; try reflexivity.
  - apply orb_true_iff in Erc.
    destruct Erc as [E|E]; apply Z.eqb_eq in E; auto.
  - apply String.eqb_neq. exact Eo.
  - apply String.eqb_neq. exact Eb.
  - cbn [say buffer]. apply buffer_replace_whole.
Qed.

(** The frame of format and fix: the stored diagnostics and the panel. *)
Lemma format_fix_frame (H : Host) (settings : Settings)
  (use_selection : bool) (v : View) :
  (ruff_diagnostics (format_run H settings use_selection v)
   = ruff_diagnostics v /\
   exec_panel (format_run H settings use_selection v) = exec_panel v) /\
  (ruff_diagnostics (fix_run H settings v) = ruff_diagnostics v /\
   exec_panel (fix_run H settings v) = exec_panel v).
Proof.
  split.
  - unfold format_run.
    destruct (is_python v); cbn [negb]; [|split; reflexivity].
    destruct (find_ruff_binary H settings); [|split; reflexivity].
    destruct (sel v); [split; reflexivity|]. cbv zeta.
    destruct (spawn H _) as [rc out err| |msg]; [|split; reflexivity..].
    destruct (rc =? 0); [|split; reflexivity].
    destruct (negb _); split; reflexivity.
  - unfold fix_run.
    destruct (is_python v); cbn [negb]; [|split; reflexivity].
    destruct (find_ruff_binary H settings); [|split; reflexivity].
    destruct (spawn H _) as [rc out err| |msg]; [|split; reflexivity..].
    destruct ((rc =? 0) || (rc =? 1)); [|split; reflexivity].
    destruct (negb _ && negb _); split; reflexivity.
Qed.

(** X13.  Format and fix never write the [ruff_diagnostics] setting nor the
    panel, also when they rewrite the buffer: the offsets that lint stored
    stay as they were. *)
Theorem format_fix_keep_diagnostics (H : Host) (settings : Settings)
  (use_selection : bool) (v : View) :
  (ruff_diagnostics (format_run H settings use_selection v)
   = ruff_diagnostics v /\
   exec_panel (format_run H settings use_selection v) = exec_panel v) /\
  (ruff_diagnostics (fix_run H settings v) = ruff_diagnostics v /\
   exec_panel (fix_run H settings v) = exec_panel v).
Proof.
  destruct (format_fix_frame H settings use_selection v)
    as [[Fd Fp] [Xd Xp]].
  split; split; assumption.
Qed.

(** X8.  One issue that cannot be turned into a diagnostic spoils the list: no
    diagnostic of the run is kept. *)
Theorem one_bad_issue_spoils_all (H : Host) (v : View) (diags : list json)
  (diag : json) (e : exn) :
  In diag diags ->
  diagnostic_of H v diag = Raise e ->
  (exists e', all_diagnostics_of H v diags = Raise e') /\
  exists e', _show_diagnostics H v (JArr diags) = Raise e'.
Proof.
  intros Hin Hbad.
  assert (Hall : exists e', all_diagnostics_of H v diags = Raise e').
  { induction diags as [|x rest IH]; [contradiction|].
    cbn [all_diagnostics_of].
    destruct (diagnostic_of H v x) as [d|ex] eqn:Ex;
      [|eexists; reflexivity].
    destruct Hin as [->|Hin]; [congruence|].
    destruct (IH Hin) as [e' E']. rewrite E'. eexists. reflexivity. }
  split; [assumption|].
  destruct Hall as [e' E']. unfold _show_diagnostics. cbn [py_iter bind].
  rewrite E'. eexists. reflexivity.
Qed.

Lemma one_bad_issue_spoils_all_witness :
  _show_diagnostics (lint_host TimeoutExpired) (example_view "import os")
    (JArr [issue_at 1 1; JObj [("location", JStr "1:1")]; issue_at 1 8])
  = Raise AttributeError.
Proof.
  destruct (@one_bad_issue_spoils_all (lint_host TimeoutExpired)
              (example_view "import os")
              [issue_at 1 1; JObj [("location", JStr "1:1")]; issue_at 1 8]
              (JObj [("location", JStr "1:1")]) AttributeError
              (or_intror (or_introl eq_refl)) eq_refl)
    as [_ [e' E']].
  rewrite E'. injection E' as <-. reflexivity.
Defined.

(** ** Lint: what the tool is given *)

(** X9.  For a saved file the tool is given the path and nothing on standard
    input, so the run does not depend on the text in the buffer; for an
    unsaved one it is given the whole buffer. *)
Theorem lint_input (H : Host) (settings : Settings) (v : View)
  (ruff_binary : string) :
  (forall filepath, present (file_name v) = Some filepath ->
     stdin (lint_invocation H settings v ruff_binary) = None /\
     last (cmd (lint_invocation H settings v ruff_binary)) "" = filepath /\
     forall text,
       lint_invocation H settings
         (mkView (is_python v) (file_name v) (folders v) text (sel v)
            (regions v) (ruff_diagnostics v) (exec_panel v) (shown v)
            (edits v) (log v)) ruff_binary
       = lint_invocation H settings v ruff_binary) /\
  (present (file_name v) = None ->
     stdin (lint_invocation H settings v ruff_binary) = Some (buffer v) /\
     last (cmd (lint_invocation H settings v ruff_binary)) "" = "-").
Proof.
  split.
  - intros filepath Hp. unfold lint_invocation, lint_cmd, working_directory.
    cbn [stdin cmd file_name folders]. rewrite Hp. repeat split.
    rewrite !app_assoc. apply last_last.
  - intros Hp. unfold lint_invocation, lint_cmd. cbn [stdin cmd].
    rewrite Hp, substr_whole. split; [reflexivity|].
    rewrite !app_assoc.
    change ["--stdin-filename"; "stdin.py"; "-"]
      with (["--stdin-filename"; "stdin.py"] ++ ["-"])%list.
    rewrite app_assoc. apply last_last.
Qed.

Lemma lint_input_witness :
  stdin (lint_invocation (lint_host TimeoutExpired)
           (mkSettings None None None None) (example_view "import os")
           "/usr/bin/ruff") = None /\
  cmd (lint_invocation (lint_host TimeoutExpired)
         (mkSettings None None None None) (example_view "import os")
         "/usr/bin/ruff")
  = ["/usr/bin/ruff"; "check"; "--output-format"; "json";
     "/w/a/b/c/file.py"].
Proof.
  destruct (@lint_input (lint_host TimeoutExpired)
              (mkSettings None None None None) (example_view "import os")
              "/usr/bin/ruff") as [Hsaved _].
  destruct (Hsaved "/w/a/b/c/file.py" eq_refl) as (Hs & _ & _).
  split; [exact Hs | reflexivity].
Defined.

(** ** Navigation: which diagnostics can be reached *)

Lemma find_none_all {A : Type} (p : A -> bool) (l : list A) :
  (forall x, In x l -> p x = false) -> find p l = None.
Proof.
  induction l as [|x l IH]; intros Hall; simpl; [reflexivity|].
  rewrite (Hall x (or_introl eq_refl)). apply IH.
  intros y Hy. apply Hall. right. exact Hy.
Qed.

(** The element that a search, or else the head, yields from a list is not
    [y] when [y] stands behind an [x] that passes the test whenever [y]
    does. *)
Lemma find_or_head_avoids {A : Type} (p : A -> bool) (l1 l2 : list A)
  (x y : A) :
  (p y = true -> p x = true) -> ~ In y (l1 ++ [x]) ->
  match find p (l1 ++ x :: l2) with
  | Some d => Some d
  | None => hd_error (l1 ++ x :: l2)
  end <> Some y.
Proof.
  intros Hp Hnot.
  assert (Hfind : forall d, find p (l1 ++ x :: l2) = Some d -> d <> y).
  { clear -Hp Hnot. induction l1 as [|a l1 IH]; simpl in *; intros d.
    - destruct (p x) eqn:Px.
      + intros [= <-]. intros ->. apply Hnot. left. reflexivity.
      + intros Hf. apply find_some in Hf. destruct Hf as [_ Pd].
        intros ->. specialize (Hp Pd). congruence.
    - destruct (p a).
      + intros [= <-]. intros ->. apply Hnot. left. reflexivity.
      + apply IH. intros Hin. apply Hnot. right. exact Hin. }
  destruct (find p (l1 ++ x :: l2)) as [d|].
  - intros [= ->]. exact (Hfind y eq_refl eq_refl).
  - destruct l1 as [|a l1]; simpl; intros [= ->]; apply Hnot; left;
      reflexivity.
Qed.

(** X18.  On a non-empty stored list both commands always find a diagnostic of the
    list, select its region and show its message and code. *)
Theorem navigation_lands_on_stored (v : View) (ds : list StoredDiag)
  (region0 : Region) (rest : list Region) :
  get (ruff_diagnostics v) [] = ds -> ds <> [] ->
  sel v = region0 :: rest ->
  (exists d, In d ds /\ next_diag ds (begin region0) = Some d /\
             next_error_run v = goto d v /\
             sel (next_error_run v) = [region d] /\
             log (next_error_run v)
             = status_diag (message d) (code d) :: log v) /\
  (exists d, In d ds /\ prev_diag ds (begin region0) = Some d /\
             previous_error_run v = goto d v /\
             sel (previous_error_run v) = [region d] /\
             log (previous_error_run v)
             = status_diag (message d) (code d) :: log v).
Proof.
  intros E Hne Hsel. split.
  - assert (Hd : exists d, In d ds /\ next_diag ds (begin region0) = Some d).
    { rewrite next_diag_first.
      destruct (find (fun d => begin region0 <? start d) ds) as [d|] eqn:Hf.
      - exists d. apply find_some in Hf. tauto.
      - destruct ds as [|d0 ds']; [contradiction|].
        exists d0. split; [left|]; reflexivity. }
    destruct Hd as (d & Hin & Hpick). exists d.
    unfold next_error_run.
    rewrite (navigate_goto next_diag v E Hne Hsel Hpick).
    repeat split; assumption.
  - assert (Hd : exists d, In d ds /\ prev_diag ds (begin region0) = Some d).
    { rewrite prev_diag_last.
      destruct (find (fun d => start d <? begin region0) (rev ds))
        as [d|] eqn:Hf.
      - exists d. apply find_some in Hf. destruct Hf as [Hin _].
        apply in_rev in Hin. tauto.
      - destruct (rev ds) as [|d0 ds'] eqn:Er.
        + apply (f_equal (@rev _)) in Er. rewrite rev_involutive in Er.
          contradiction.
        + exists d0. split; [|reflexivity].
          apply in_rev. rewrite Er. left. reflexivity. }
    destruct Hd as (d & Hin & Hpick). exists d.
    unfold previous_error_run.
    rewrite (navigate_goto prev_diag v E Hne Hsel Hpick).
    repeat split; assumption.
Qed.

(** X19.  A diagnostic stored behind another one that starts at the same offset
    or later is never reached by next; one stored before another that starts
    at the same offset or earlier is never reached by previous. *)
Theorem navigation_skips_shadowed (front back : list StoredDiag)
  (d1 d2 : StoredDiag) (pos : Z) :
  start d2 <= start d1 ->
  (~ In d2 (front ++ [d1]) ->
   next_diag (front ++ d1 :: back) pos <> Some d2) /\
  (~ In d1 (d2 :: back) ->
   prev_diag (front ++ d2 :: back) pos <> Some d1).
Proof.
  intros Hle. split; intros Hnot.
  - rewrite next_diag_first.
    apply find_or_head_avoids; [|assumption].
    intros P. apply Z.ltb_lt in P. apply Z.ltb_lt. lia.
  - rewrite prev_diag_last, rev_app_distr. cbn [rev].
    rewrite <- app_assoc. cbn [app].
    apply find_or_head_avoids.
    + intros P. apply Z.ltb_lt in P. apply Z.ltb_lt. lia.
    + intros Hin. apply Hnot. apply in_app_or in Hin.
      destruct Hin as [Hin|[<-|[]]]; [right; apply in_rev; exact Hin|].
      left. reflexivity.
Qed.

Lemma navigation_skips_shadowed_witness :
  next_diag [diag_at 10; warning_at 10; diag_at 50] 0 <> Some (warning_at 10) /\
  prev_diag [diag_at 10; warning_at 10; diag_at 50] 60 <> Some (diag_at 10).
Proof.
  split.
  - refine (proj1 (@navigation_skips_shadowed [] [warning_at 10; diag_at 50]
                     (diag_at 10) (warning_at 10) 0 _) _).
    + unfold start, begin. simpl. lia.
    + intros [E|[]]. discriminate E.
  - refine (proj2 (@navigation_skips_shadowed [diag_at 10] [diag_at 50]
                     (diag_at 10) (warning_at 10) 60 _) _).
    + unfold start, begin. simpl. lia.
    + intros [E|[E|[]]]; discriminate E.
Defined.

Lemma navigation_lands_on_stored_witness :
  sel (next_error_run
         (set_diagnostics (Some [diag_at 10; diag_at 50])
            (example_view "import os, sys")))
  = [mkRegion 10 14].
Proof.
  assert (Hne : [diag_at 10; diag_at 50] <> []) by discriminate.
  destruct (@navigation_lands_on_stored
              (set_diagnostics (Some [diag_at 10; diag_at 50])
                 (example_view "import os, sys"))
              [diag_at 10; diag_at 50] (mkRegion 0 0) [] eq_refl Hne eq_refl)
    as [(d & _ & Hpick & _ & Hsel & _) _].
  rewrite Hsel. injection Hpick as <-. reflexivity.
Defined.

Lemma sorted_app_inv {A : Type} (R : A -> A -> Prop) (l1 l2 : list A) :
  StronglySorted R (l1 ++ l2) ->
  StronglySorted R l1 /\ StronglySorted R l2 /\
  forall x y, In x l1 -> In y l2 -> R x y.
Proof.
  induction l1 as [|a l1 IH]; simpl; intros Hs.
  - repeat split; [constructor | assumption | intros ? ? []].
  - apply StronglySorted_inv in Hs. destruct Hs as [Hs Hall].
    destruct (IH Hs) as (S1 & S2 & Hcross).
    rewrite Forall_forall in Hall. repeat split; auto.
    + constructor; [assumption|]. apply Forall_forall.
      intros x Hx. apply Hall. apply in_or_app. left. exact Hx.
    + intros x y [<-|Hx] Hy; [|auto].
      apply Hall. apply in_or_app. right. exact Hy.
Qed.

(** X20.  With strictly increasing starts the commands walk the list: from the
    start of a diagnostic, next yields its successor and previous its
    predecessor; from the last, next wraps to the first, and from the first,
    previous wraps to the last.  After a jump the cursor is at the start of
    the diagnostic jumped to. *)
Theorem navigation_walks_the_list (ds : list StoredDiag) :
  strictly_ordered ds ->
  (forall front d d' back, ds = (front ++ d :: d' :: back)%list ->
     next_diag ds (start d) = Some d' /\ prev_diag ds (start d') = Some d) /\
  (forall front d, ds = (front ++ [d])%list ->
     next_diag ds (start d) = hd_error ds) /\
  (forall d back, ds = d :: back ->
     prev_diag ds (start d) = hd_error (rev ds)) /\
  (forall d v, hd_error (sel (goto d v)) = Some (region d)).
Proof.
  intros Hs. repeat split.
  - subst ds. apply sorted_app_inv in Hs. destruct Hs as (_ & Hs & Hcross).
    rewrite next_diag_first, find_app_first.
    rewrite find_none_all.
    + cbn [find]. rewrite Z.ltb_irrefl.
      apply StronglySorted_inv in Hs. destruct Hs as [_ Hall].
      apply Forall_inv in Hall. apply Z.ltb_lt in Hall. rewrite Hall.
      reflexivity.
    + intros x Hx. apply Z.ltb_ge.
      specialize (Hcross x d Hx (or_introl eq_refl)). lia.
  - subst ds. rewrite prev_diag_last.
    replace (rev (front ++ d :: d' :: back))
      with (rev back ++ d' :: d :: rev front)%list
      by (rewrite rev_app_distr; cbn [rev]; rewrite <- !app_assoc;
          reflexivity).
    apply sorted_app_inv in Hs. destruct Hs as (_ & Hs & _).
    apply StronglySorted_inv in Hs. destruct Hs as [Hs Hd].
    apply StronglySorted_inv in Hs. destruct Hs as [_ Hd'].
    rewrite find_app_first, find_none_all.
    + cbn [find]. rewrite Z.ltb_irrefl.
      apply Forall_inv in Hd. apply Z.ltb_lt in Hd. rewrite Hd. reflexivity.
    + intros x Hx. apply in_rev in Hx. rewrite Forall_forall in Hd'.
      apply Z.ltb_ge. specialize (Hd' x Hx). lia.
  - intros front d ->. rewrite next_diag_first, find_none_all; [reflexivity|].
    intros x Hx. apply Z.ltb_ge.
    apply sorted_app_inv in Hs. destruct Hs as (_ & _ & Hcross).
    apply in_app_or in Hx. destruct Hx as [Hx|[<-|[]]]; [|lia].
    specialize (Hcross x d Hx (or_introl eq_refl)). lia.
  - intros d back ->. rewrite prev_diag_last, find_none_all; [reflexivity|].
    intros x Hx. apply in_rev in Hx. apply Z.ltb_ge.
    apply StronglySorted_inv in Hs. destruct Hs as [_ Hall].
    rewrite Forall_forall in Hall.
    destruct Hx as [<-|Hx]; [lia|]. specialize (Hall x Hx). lia.
Qed.

Lemma strictly_ordered_three :
  strictly_ordered [diag_at 10; diag_at 50; diag_at 90].
Proof.
  unfold strictly_ordered.
  repeat (constructor;
          [|repeat (constructor; [unfold start, begin; simpl; lia|]);
            constructor]).
  constructor.
Qed.

Lemma navigation_walks_the_list_witness :
  next_diag [diag_at 10; diag_at 50; diag_at 90] 10 = Some (diag_at 50) /\
  prev_diag [diag_at 10; diag_at 50; diag_at 90] 50 = Some (diag_at 10) /\
  next_diag [diag_at 10; diag_at 50; diag_at 90] 90 = Some (diag_at 10) /\
  prev_diag [diag_at 10; diag_at 50; diag_at 90] 10 = Some (diag_at 90).
Proof.
  destruct (navigation_walks_the_list strictly_ordered_three)
    as (Hstep & Hlast & Hfirst & _).
  destruct (Hstep [] (diag_at 10) (diag_at 50) [diag_at 90] eq_refl)
    as [Hn Hp].
  split; [exact Hn | split; [exact Hp | split]].
  - exact (Hlast [diag_at 10; diag_at 50] (diag_at 90) eq_refl).
  - exact (Hfirst (diag_at 10) [diag_at 50; diag_at 90] eq_refl).
Defined.

(** ** Hover and clear *)

(** X21.  Over Python text the hover popup lists exactly the stored diagnostics
    whose region contains the point, in stored order; there is no popup when
    no region contains it; every stored diagnostic is listed at both ends of
    its region; the documentation link is left out when the stored url is
    empty. *)
Theorem hover_lists_containing (v : View) (ds : list StoredDiag) (point : Z) :
  get (ruff_diagnostics v) [] = ds ->
  (on_hover v point true true = None <->
   forall d, In d ds ->
             ~ (begin (region d) <= point <= end_ (region d))) /\
  (forall entries, on_hover v point true true = Some entries ->
     entries
     = map hover_entry
         (filter (fun d => (begin (region d) <=? point)
                           && (point <=? end_ (region d))) ds)) /\
  (forall d, In d ds ->
     (exists entries, on_hover v (a (region d)) true true = Some entries /\
                      In (hover_entry d) entries) /\
     (exists entries, on_hover v (b (region d)) true true = Some entries /\
                      In (hover_entry d) entries)) /\
  (forall d, url d = JStr "" -> entry_url (hover_entry d) = None).
Proof.
  intros E.
  assert (Hshape : on_hover v point true true =
                   match hover_diagnostics ds point with
                   | [] => None
                   | found => Some (map hover_entry found)
                   end).
  { unfold on_hover. rewrite E. cbn [negb].
    destruct ds; reflexivity. }
  assert (Hfound : forall p d, In d ds ->
            begin (region d) <= p <= end_ (region d) ->
            exists entries, on_hover v p true true = Some entries /\
                            In (hover_entry d) entries).
  { intros p d Hin Hc.
    assert (Hf : In d (hover_diagnostics ds p)).
    { apply filter_In. split; [assumption|]. unfold contains.
      apply andb_true_iff. split; apply Z.leb_le; lia. }
    unfold on_hover. rewrite E. cbn [negb].
    destruct ds as [|d0 ds']; [contradiction|].
    destruct (hover_diagnostics (d0 :: ds') p) as [|x xs] eqn:Eh;
      [contradiction|].
    eexists. split; [reflexivity|]. apply in_map. exact Hf. }
  repeat split.
  - intros Hnone d Hin Hc.
    destruct (Hfound point d Hin Hc) as (entries & Eo & _). congruence.
  - intros Hall. rewrite Hshape.
    destruct (hover_diagnostics ds point) as [|x xs] eqn:Eh; [reflexivity|].
    assert (Hx : In x (hover_diagnostics ds point))
      by (rewrite Eh; left; reflexivity).
    apply filter_In in Hx. destruct Hx as [Hin Hc].
    unfold contains in Hc. apply andb_true_iff in Hc.
    destruct Hc as [H1 H2]. apply Z.leb_le in H1. apply Z.leb_le in H2.
    exfalso. apply (Hall x Hin). lia.
  - intros entries. rewrite Hshape. unfold hover_diagnostics, contains.
    destruct (filter _ ds); [discriminate|]. intros [= <-]. reflexivity.
  - apply Hfound; [assumption|]. unfold begin, end_. lia.
  - apply Hfound; [assumption|]. unfold begin, end_. lia.
  - intros d Hu. unfold hover_entry. rewrite Hu. reflexivity.
Qed.

Lemma hover_lists_containing_witness :
  [hover_entry (diag_at 10); hover_entry (warning_at 10)]
  = map hover_entry
      (filter (fun d => (begin (region d) <=? 11) && (11 <=? end_ (region d)))
         [diag_at 10; warning_at 10; diag_at 50]).
Proof.
  destruct (@hover_lists_containing
              (set_diagnostics (Some [diag_at 10; warning_at 10; diag_at 50])
                 (example_view "import os, sys"))
              [diag_at 10; warning_at 10; diag_at 50] 11 eq_refl)
    as (_ & Hsome & _).
  exact (Hsome [hover_entry (diag_at 10); hover_entry (warning_at 10)]
           eq_refl).
Defined.

(** X22.  After the clear command nothing is stored and nothing is drawn: hover
    shows no popup, both navigation commands only report that there are no
    errors and leave the selection alone, and the buffer is untouched. *)
Theorem clear_forgets (v : View) :
  let v' := clear_run v in
  ruff_diagnostics v' = None /\
  regions v' "ruff_errors" = [] /\
  regions v' "ruff_warnings" = [] /\
  regions v' "ruff_info" = [] /\
  buffer v' = buffer v /\ edits v' = edits v /\ sel v' = sel v /\
  (forall point zone here, on_hover v' point zone here = None) /\
  next_error_run v'
  = say (status_message "PythonRuff: No errors found") v' /\
  previous_error_run v'
  = say (status_message "PythonRuff: No errors found") v'.
Proof.
  cbv zeta. repeat split.
  intros point [|] [|]; reflexivity.
Qed.

(** ** Saving *)

(** X23.  Before a save, fix runs first and format, on the whole buffer, second,
    each only if its flag is on; a flag of the project beats the one of the
    settings file, and an absent flag is off.  Nothing happens on a view
    that is not Python, and the stored diagnostics are never touched. *)
Theorem pre_save_spec (H : Host) (settings : Settings) (flags : SaveFlags)
  (project : option SaveFlags) (v : View) :
  (is_python v = true ->
   on_pre_save H settings flags project v =
     let v1 := if effective fix_on_save flags project
               then fix_run H settings v else v in
     if effective format_on_save flags project
     then format_run H settings false v1 else v1) /\
  (is_python v = false -> on_pre_save H settings flags project v = v) /\
  (forall p b, project = Some p -> format_on_save p = Some b ->
     effective format_on_save flags project = b) /\
  (forall p b, project = Some p -> fix_on_save p = Some b ->
     effective fix_on_save flags project = b) /\
  (project = None ->
   effective format_on_save flags project = get (format_on_save flags) false /\
   effective fix_on_save flags project = get (fix_on_save flags) false) /\
  ruff_diagnostics (on_pre_save H settings flags project v)
  = ruff_diagnostics v.
Proof.
  split; [|split; [|split; [|split; [|split]]]].
  - intros Hpy. unfold on_pre_save. rewrite Hpy. reflexivity.
  - intros Hpy. unfold on_pre_save. rewrite Hpy. reflexivity.
  - intros p b -> Hb. unfold effective. rewrite Hb. reflexivity.
  - intros p b -> Hb. unfold effective. rewrite Hb. reflexivity.
  - intros ->. split; reflexivity.
  - unfold on_pre_save. destruct (is_python v); cbn [negb]; [|reflexivity].
    destruct (effective fix_on_save flags project),
      (effective format_on_save flags project);
      repeat match goal with
             | |- context [ruff_diagnostics (format_run ?h ?s ?u ?w)] =>
                 rewrite (proj1 (proj1 (format_fix_frame h s u w)))
             | |- context [ruff_diagnostics (fix_run ?h ?s ?w)] =>
                 rewrite (proj1 (proj2 (format_fix_frame h s false w)))
             end; reflexivity.
Qed.

Lemma pre_save_spec_witness :
  buffer (on_pre_save format_host (mkSettings None None None None)
            (mkSaveFlags (Some true) None (Some true))
            (Some (mkSaveFlags (Some false) None (Some false)))
            (example_view ("x = 1" ++ cr ++ newline)))
  = "x = 1" ++ cr ++ newline /\
  buffer (on_pre_save format_host (mkSettings None None None None)
            (mkSaveFlags None None None)
            (Some (mkSaveFlags (Some true) None None))
            (example_view ("x = 1" ++ cr ++ newline)))
  = "x = 1" ++ newline.
Proof.
  split.
  - destruct (@pre_save_spec format_host (mkSettings None None None None)
                (mkSaveFlags (Some true) None (Some true))
                (Some (mkSaveFlags (Some false) None (Some false)))
                (example_view ("x = 1" ++ cr ++ newline)))
      as (Hrun & _).
    rewrite (Hrun eq_refl). reflexivity.
  - destruct (@pre_save_spec format_host (mkSettings None None None None)
                (mkSaveFlags None None None)
                (Some (mkSaveFlags (Some true) None None))
                (example_view ("x = 1" ++ cr ++ newline)))
      as (Hrun & _).
    rewrite (Hrun eq_refl). reflexivity.
Defined.

(** X24.  After a save of a Python view, lint runs exactly when its flag is on,
    the project's flag beating the one of the settings file; on any other
    view nothing happens; the buffer is never written. *)
Theorem post_save_spec (H : Host) (settings : Settings) (flags : SaveFlags)
  (project : option SaveFlags) (v : View) :
  (is_python v = true ->
   on_post_save H settings flags project v =
     if effective lint_on_save flags project then lint_run H settings v
     else v) /\
  (is_python v = false -> on_post_save H settings flags project v = v) /\
  (forall p b, project = Some p -> lint_on_save p = Some b ->
     effective lint_on_save flags project = b) /\
  (project = None ->
   effective lint_on_save flags project = get (lint_on_save flags) false) /\
  buffer (on_post_save H settings flags project v) = buffer v /\
  edits (on_post_save H settings flags project v) = edits v.
Proof.
  unfold on_post_save. split; [|split; [|split; [|split; [|split]]]].
  - intros ->. reflexivity.
  - intros ->. reflexivity.
  - intros p b -> Hb. unfold effective. rewrite Hb. reflexivity.
  - intros ->. reflexivity.
  - destruct (is_python v); cbn [negb]; [|reflexivity].
    destruct (effective lint_on_save flags project); [|reflexivity].
    apply lint_run_frame.
  - destruct (is_python v); cbn [negb]; [|reflexivity].
    destruct (effective lint_on_save flags project); [|reflexivity].
    apply lint_run_frame.
Qed.

Lemma post_save_spec_witness :
  log (on_post_save (lint_host (Exited 0 "" ""))
         (mkSettings None None None None)
         (mkSaveFlags None (Some false) None)
         (Some (mkSaveFlags None (Some true) None))
         (example_view "import os"))
  = [status_message "PythonRuff: No issues found"].
Proof.
  destruct (@post_save_spec (lint_host (Exited 0 "" ""))
              (mkSettings None None None None)
              (mkSaveFlags None (Some false) None)
              (Some (mkSaveFlags None (Some true) None))
              (example_view "import os")) as (Hrun & _).
  rewrite (Hrun eq_refl). reflexivity.
Defined.

(** X25.  Each toggle command flips what its menu entry shows as checked, leaves
    the two other flags alone and says which state it set; two toggles bring
    the entry back.  Without project data the flag just set decides whether
    the command runs on save. *)
Theorem toggle_spec (flags : SaveFlags) :
  (format_is_checked (fst (toggle_format_on_save flags))
   = negb (format_is_checked flags) /\
   lint_on_save (fst (toggle_format_on_save flags)) = lint_on_save flags /\
   fix_on_save (fst (toggle_format_on_save flags)) = fix_on_save flags /\
   format_is_checked
     (fst (toggle_format_on_save (fst (toggle_format_on_save flags))))
   = format_is_checked flags /\
   effective format_on_save (fst (toggle_format_on_save flags)) None
   = negb (format_is_checked flags)) /\
  (lint_is_checked (fst (toggle_lint_on_save flags))
   = negb (lint_is_checked flags) /\
   format_on_save (fst (toggle_lint_on_save flags)) = format_on_save flags /\
   fix_on_save (fst (toggle_lint_on_save flags)) = fix_on_save flags /\
   lint_is_checked
     (fst (toggle_lint_on_save (fst (toggle_lint_on_save flags))))
   = lint_is_checked flags /\
   effective lint_on_save (fst (toggle_lint_on_save flags)) None
   = negb (lint_is_checked flags)) /\
  (fix_is_checked (fst (toggle_fix_on_save flags))
   = negb (fix_is_checked flags) /\
   format_on_save (fst (toggle_fix_on_save flags)) = format_on_save flags /\
   lint_on_save (fst (toggle_fix_on_save flags)) = lint_on_save flags /\
   fix_is_checked
     (fst (toggle_fix_on_save (fst (toggle_fix_on_save flags))))
   = fix_is_checked flags /\
   effective fix_on_save (fst (toggle_fix_on_save flags)) None
   = negb (fix_is_checked flags)) /\
  (snd (toggle_format_on_save flags)
   = status_message
       (if format_is_checked (fst (toggle_format_on_save flags))
        then "PythonRuff: Format on save enabled"
        else "PythonRuff: Format on save disabled") /\
   snd (toggle_lint_on_save flags)
   = status_message
       (if lint_is_checked (fst (toggle_lint_on_save flags))
        then "PythonRuff: Lint on save enabled"
        else "PythonRuff: Lint on save disabled") /\
   snd (toggle_fix_on_save flags)
   = status_message
       (if fix_is_checked (fst (toggle_fix_on_save flags))
        then "PythonRuff: Fix on save enabled"
        else "PythonRuff: Fix on save disabled")).
Proof.
  destruct flags as [[[|]|] [[|]|] [[|]|]]; repeat split.
Qed.

(** ** ConfigResolver: the file that is found *)

Lemma find_split {A : Type} (p : A -> bool) (l : list A) (x : A) :
  find p l = Some x ->
  exists l1 l2, l = (l1 ++ x :: l2)%list /\ p x = true /\
                forall y, In y l1 -> p y = false.
Proof.
  induction l as [|a l IH]; simpl; [discriminate|].
  destruct (p a) eqn:Pa.
  - intros [= <-]. exists [], l. repeat split; auto. intros ? [].
  - intros Hf. destruct (IH Hf) as (l1 & l2 & -> & Px & Hall).
    exists (a :: l1), l2. repeat split; auto.
    intros y [<-|Hy]; auto.
Qed.

Lemma candidates_head (d : string) :
  exists rest, candidates d = (map (join d) config_names ++ rest)%list.
Proof.
  destruct (string_dec (dirname d) d) as [e|ne].
  - exists []. rewrite (candidates_root e), app_nil_r. reflexivity.
  - exists (candidates (dirname d)). apply candidates_step. exact ne.
Qed.

(** X26.  The file the resolver returns exists, bears one of the three names and
    lies in a directory of the walk, and no candidate tried before it
    exists: the nearest directory wins and, within a directory, the name of
    higher priority.  In particular a ruff.toml beside the file is returned
    whatever else exists. *)
Theorem config_nearest_wins (H : Host) (f : string) :
  f <> "" ->
  let d0 := dirname (abspath H f) in
  (forall config_file, get_ruff_config_file H (Some f) = Some config_file ->
     isfile H config_file = true /\
     (exists dir name, In dir (ancestors d0) /\ In name config_names /\
                       config_file = join dir name) /\
     exists before after,
       candidates d0 = (before ++ config_file :: after)%list /\
       forall p, In p before -> isfile H p = false) /\
  (isfile H (join d0 "ruff.toml") = true ->
   get_ruff_config_file H (Some f) = Some (join d0 "ruff.toml")) /\
  (isfile H (join d0 "ruff.toml") = false ->
   isfile H (join d0 ".ruff.toml") = true ->
   get_ruff_config_file H (Some f) = Some (join d0 ".ruff.toml")).
Proof.
  intros Hne d0.
  assert (E : get_ruff_config_file H (Some f)
              = find (isfile H) (candidates d0)).
  { unfold get_ruff_config_file. apply String.eqb_neq in Hne. rewrite Hne.
    apply walk_candidates. }
  rewrite E. split; [|split].
  - intros c Hf. destruct (find_split _ _ Hf) as (l1 & l2 & El & Pc & Hall).
    split; [assumption|]. split; [|exists l1, l2; split; assumption].
    assert (Hin : In c (candidates d0))
      by (rewrite El; apply in_or_app; right; left; reflexivity).
    unfold candidates in Hin. apply in_flat_map in Hin.
    destruct Hin as (dir & Hdir & Hc). apply in_map_iff in Hc.
    destruct Hc as (name & <- & Hname). exists dir, name. auto.
  - intros P1. destruct (candidates_head d0) as [rest ->].
    cbn [map config_names app find]. rewrite P1. reflexivity.
  - intros P1 P2. destruct (candidates_head d0) as [rest ->].
    cbn [map config_names app find]. rewrite P1, P2. reflexivity.
Qed.

Lemma config_nearest_wins_witness :
  get_ruff_config_file
    (Posix.host ["/w/a/b/c/ruff.toml"; "/w/a/b/c/pyproject.toml";
                 "/w/a/ruff.toml"] [] [] "/w"
       (fun _ => TimeoutExpired) Json.loads)
    (Some "a/b/c/file.py")
  = Some "/w/a/b/c/ruff.toml".
Proof.
  assert (Hne : "a/b/c/file.py" <> "") by discriminate.
  destruct (@config_nearest_wins
              (Posix.host ["/w/a/b/c/ruff.toml"; "/w/a/b/c/pyproject.toml";
                           "/w/a/ruff.toml"] [] [] "/w"
                 (fun _ => TimeoutExpired) Json.loads)
              "a/b/c/file.py" Hne) as (_ & Hfirst & _).
  exact (Hfirst eq_refl).
Defined.

Lemma ancestors_head (d : string) : hd_error (ancestors d) = Some d.
Proof. funelim (ancestors d); reflexivity. Qed.

(** ** Fix and format: repeated runs, early stops, reports *)

Lemma fix_never_blanks_witness :
  buffer (fix_run
            (Posix.host ["/usr/bin/ruff"] ["/usr/bin/ruff"] ["/usr/bin"] "/w"
               (stdin_tool (fun _ => Exited 0 "" "")) Json.loads)
            (mkSettings None None None None) (example_view "import  os"))
  <> "".
Proof.
  apply fix_never_blanks. discriminate.
Defined.

(** X14.  Two fix runs in a row with a tool that prints [fixer] of its input and
    exits with 0 or 1: when [fixer] leaves fixed text alone, the second run
    writes nothing. *)
Theorem fix_twice (H : Host) (settings : Settings) (v : View)
  (fixer : string -> string) :
  (forall inv code, stdin inv = Some code ->
     exists returncode stderr,
       (returncode = 0 \/ returncode = 1) /\
       spawn H inv = Exited returncode (fixer code) stderr) ->
  (forall s, fixer (fixer s) = fixer s) ->
  let v1 := fix_run H settings v in
  let v2 := fix_run H settings v1 in
  buffer v2 = buffer v1 /\ edits v2 = edits v1.
Proof.
  intros Htool Hidem v1 v2.
  destruct (is_python v) eqn:Hpy;
    [|subst v2 v1; unfold fix_run; rewrite Hpy; cbn; rewrite Hpy;
      split; reflexivity].
  destruct (find_ruff_binary H settings) as [bin|msg] eqn:Hfind;
    [|subst v2 v1; unfold fix_run; rewrite Hpy, Hfind; cbn; rewrite Hpy;
      split; reflexivity].
  assert (Hrun : forall w,
            is_python w = true ->
            forall bin, find_ruff_binary H settings = inl bin ->
            fix_run H settings w =
              if negb (fixer (buffer w) =? "")%string
                 && negb (fixer (buffer w) =? buffer w)%string
              then say (status_message "PythonRuff: Fixed issues successfully")
                     (replace (whole w) (fixer (buffer w)) w)
              else say (status_message "PythonRuff: No fixable issues found")
                     w).
  { intros w Hw bin' Hb. unfold fix_run. rewrite Hw, Hb. cbn [negb].
    destruct (Htool (fix_invocation H settings w bin' (substr w (whole w)))
                (substr w (whole w)) eq_refl) as (rc & err & Hrc & Hsp).
    rewrite Hsp, substr_whole.
    assert (Hc : (rc =? 0) || (rc =? 1) = true)
      by (destruct Hrc as [-> | ->]; reflexivity).
    rewrite Hc. reflexivity. }
  pose proof (Hrun v Hpy bin Hfind) as E1. fold v1 in E1.
  assert (Hpy1 : is_python v1 = true)
    by (rewrite E1; destruct (negb _ && negb _); exact Hpy).
  pose proof (Hrun v1 Hpy1 bin Hfind) as E2. fold v2 in E2.
  assert (Hstable : (fixer (buffer v1) =? "")%string = true \/
                    (fixer (buffer v1) =? buffer v1)%string = true).
  { rewrite E1.
    destruct (fixer (buffer v) =? "")%string eqn:Ee; cbn [negb andb].
    - left. exact Ee.
    - destruct (fixer (buffer v) =? buffer v)%string eqn:Eb; cbn [negb].
      + right. exact Eb.
      + right. cbn [say buffer]. rewrite buffer_replace_whole, Hidem.
        apply String.eqb_refl. }
  rewrite E2.
  destruct Hstable as [-> | ->]; cbn [negb andb];
    rewrite ?andb_false_r; split; reflexivity.
Qed.

Lemma fix_twice_witness :
  let H := Posix.host ["/usr/bin/ruff"] ["/usr/bin/ruff"] ["/usr/bin"] "/w"
             (stdin_tool (fun code => Exited 1 (drop_cr code) "")) Json.loads in
  let v1 := fix_run H (mkSettings None None None None)
              (example_view ("x = 1" ++ cr)) in
  edits (fix_run H (mkSettings None None None None) v1) = edits v1.
Proof.
  cbv zeta.
  refine (proj2 (@fix_twice
                   (Posix.host ["/usr/bin/ruff"] ["/usr/bin/ruff"]
                      ["/usr/bin"] "/w"
                      (stdin_tool (fun code => Exited 1 (drop_cr code) ""))
                      Json.loads)
                   (mkSettings None None None None)
                   (example_view ("x = 1" ++ cr)) drop_cr _ drop_cr_idem)).
  intros inv code Hin. exists 1, "". split; [right; reflexivity|].
  cbn [spawn Posix.host]. unfold stdin_tool. rewrite Hin. reflexivity.
Defined.

(** X16.  A command that cannot start the tool does nothing but report: on a view
    that is not Python each of the three only says so, and when the tool is
    not found each shows the locator's message; lint has then not yet erased
    any marker. *)
Theorem commands_stop_early (H : Host) (settings : Settings)
  (use_selection : bool) (v : View) :
  (is_python v = false ->
   format_run H settings use_selection v
   = say (status_message "PythonRuff: Not a Python file") v /\
   lint_run H settings v
   = say (status_message "PythonRuff: Not a Python file") v /\
   fix_run H settings v
   = say (status_message "PythonRuff: Not a Python file") v) /\
  (forall msg, is_python v = true ->
     find_ruff_binary H settings = inr msg ->
     format_run H settings use_selection v = say (error_message msg) v /\
     lint_run H settings v = say (error_message msg) v /\
     fix_run H settings v = say (error_message msg) v /\
     regions (lint_run H settings v) = regions v).
Proof.
  split.
  - intros Hpy. unfold format_run, lint_run, fix_run. rewrite Hpy.
    repeat split.
  - intros msg Hpy Hfind. unfold format_run, lint_run, fix_run.
    rewrite Hpy, Hfind. repeat split.
Qed.

Lemma commands_stop_early_witness :
  lint_run
    (Posix.host [] [] ["/usr/bin"] "/w" (fun _ => TimeoutExpired) Json.loads)
    (mkSettings (Some "/opt/ruff") None None None)
    (example_view "import os")
  = say (error_message "Ruff binary not found at: /opt/ruff")
      (example_view "import os").
Proof.
  destruct (@commands_stop_early
              (Posix.host [] [] ["/usr/bin"] "/w" (fun _ => TimeoutExpired)
                 Json.loads)
              (mkSettings (Some "/opt/ruff") None None None) true
              (example_view "import os")) as [_ Hnf].
  destruct (Hnf "Ruff binary not found at: /opt/ruff" eq_refl eq_refl)
    as (_ & Hl & _).
  exact Hl.
Defined.

(** X17.  Fix tells the user exactly one thing per run, and so does format on a
    view that has a selection. *)
Theorem format_fix_report_once (H : Host) (settings : Settings)
  (use_selection : bool) (v : View) :
  (exists m, log (fix_run H settings v) = m :: log v) /\
  (sel v <> [] ->
   exists m, log (format_run H settings use_selection v) = m :: log v).
Proof.
  split.
  - unfold fix_run.
    destruct (is_python v); cbn [negb]; [|eexists; reflexivity].
    destruct (find_ruff_binary H settings); [|eexists; reflexivity].
    destruct (spawn H _) as [rc out err| |msg]; [|eexists; reflexivity..].
    destruct ((rc =? 0) || (rc =? 1)); [|eexists; reflexivity].
    destruct (negb _ && negb _); eexists; reflexivity.
  - intros Hsel. unfold format_run.
    destruct (is_python v); cbn [negb]; [|eexists; reflexivity].
    destruct (find_ruff_binary H settings); [|eexists; reflexivity].
    destruct (sel v); [contradiction|]. cbv zeta.
    destruct (spawn H _) as [rc out err| |msg]; [|eexists; reflexivity..].
    destruct (rc =? 0); [|eexists; reflexivity].
    destruct (negb _); eexists; reflexivity.
Qed.

Lemma format_fix_report_once_witness :
  exists m,
    log (format_run format_host (mkSettings None None None None) true
           (example_view "x = 1"))
    = m :: log (example_view "x = 1").
Proof.
  apply (proj2 (@format_fix_report_once format_host
                  (mkSettings None None None None) true
                  (example_view "x = 1"))).
  discriminate.
Defined.

(** ** Lint: a second run *)

Lemma diagnostic_of_buffer (H : Host) (v1 v2 : View) (diag : json) :
  buffer v1 = buffer v2 -> diagnostic_of H v1 diag = diagnostic_of H v2 diag.
Proof.
  intros E. unfold diagnostic_of, end_point_of. rewrite E. reflexivity.
Qed.

Lemma all_diagnostics_of_buffer (H : Host) (v1 v2 : View)
  (diags : list json) :
  buffer v1 = buffer v2 ->
  all_diagnostics_of H v1 diags = all_diagnostics_of H v2 diags.
Proof.
  intros E. induction diags as [|diag rest IH]; [reflexivity|].
  cbn [all_diagnostics_of]. rewrite IH, (diagnostic_of_buffer H v1 v2 diag E).
  reflexivity.
Qed.

(** What is stored and drawn after [_show_diagnostics] on a view without
    markers. *)
Lemma show_diagnostics_state (H : Host) (v : View) (diagnostics : json) :
  match _show_diagnostics H (erase_markers v) diagnostics with
  | Ok v' =>
      exists ds, diagnostics_of H v diagnostics = Ok ds /\
                 ruff_diagnostics v' = Some ds /\
                 regions v' "ruff_errors" = regions_of error ds /\
                 regions v' "ruff_warnings" = regions_of warning ds /\
                 regions v' "ruff_info" = regions_of info ds
  | Raise e => diagnostics_of H v diagnostics = Raise e
  end.
Proof.
  unfold _show_diagnostics, diagnostics_of.
  destruct (py_iter diagnostics) as [diags|e]; cbn [bind]; [|reflexivity].
  rewrite all_diagnostics_of_erase.
  destruct (all_diagnostics_of H v diags) as [ds|e]; cbn [bind];
    [|reflexivity].
  exists ds. split; [reflexivity|].
  pose proof (drawn_regions v ds) as D. cbv zeta in D.
  destruct D as (D1 & D2 & D3 & D4 & _).
  destruct ds; cbn [_show_in_exec_panel]; repeat split; assumption.
Qed.

(** The part of a view that a lint run reads. *)
Lemma lint_run_reads (H : Host) (settings : Settings) (v : View) :
  is_python (lint_run H settings v) = is_python v /\
  file_name (lint_run H settings v) = file_name v /\
  folders (lint_run H settings v) = folders v.
Proof.
  unfold lint_run.
  destruct (is_python v) eqn:Hpy; cbn [negb]; [|repeat split; assumption].
  destruct (find_ruff_binary H settings) as [bin|msg];
    [|repeat split; assumption].
  destruct (spawn H _) as [rc out err| |msg];
    try (repeat split; assumption).
  destruct (rc =? 0); [repeat split; assumption|].
  destruct (rc =? 1); [|repeat split; assumption].
  destruct (if negb (out =? "")%string then json_loads H out
            else Ok (JArr [])) as [diagnostics|e]; cbn [bind];
    [|destruct e; repeat split; assumption].
  unfold _show_diagnostics.
  destruct (py_iter diagnostics) as [diags|e]; cbn [bind];
    [|destruct e; repeat split; assumption].
  destruct (all_diagnostics_of H (erase_markers v) diags) as [ds|e];
    cbn [bind]; [|destruct e; repeat split; assumption].
  destruct ds; cbn [_show_in_exec_panel];
    destruct (regions_of error _), (regions_of warning _),
      (regions_of info _); repeat split; assumption.
Qed.

Lemma lint_invocation_reads (H : Host) (settings : Settings) (v1 v2 : View)
  (ruff_binary : string) :
  file_name v1 = file_name v2 -> folders v1 = folders v2 ->
  buffer v1 = buffer v2 ->
  lint_invocation H settings v1 ruff_binary
  = lint_invocation H settings v2 ruff_binary.
Proof.
  intros Ef Eo Eb.
  unfold lint_invocation, lint_cmd, working_directory.
  rewrite !substr_whole, Ef, Eo, Eb. reflexivity.
Qed.

(** What a lint run that reached the tool stores and draws, by the tool's
    outcome. *)
Lemma lint_run_state (H : Host) (settings : Settings) (v : View)
  (ruff_binary : string) :
  is_python v = true ->
  find_ruff_binary H settings = inl ruff_binary ->
  let v' := lint_run H settings v in
  let stored (ds : option (list StoredDiag)) (e w i : list Region) :=
    ruff_diagnostics v' = ds /\ regions v' "ruff_errors" = e /\
    regions v' "ruff_warnings" = w /\ regions v' "ruff_info" = i in
  match spawn H (lint_invocation H settings v ruff_binary) with
  | Exited returncode output _ =>
      if returncode =? 0 then stored None [] [] []
      else if returncode =? 1 then
        match (if negb (output =? "")%string then json_loads H output
               else Ok (JArr [])) with
        | Raise _ => stored (ruff_diagnostics v) [] [] []
        | Ok diagnostics =>
            match diagnostics_of H v diagnostics with
            | Ok ds =>
                stored (Some ds) (regions_of error ds)
                  (regions_of warning ds) (regions_of info ds)
            | Raise _ => stored (ruff_diagnostics v) [] [] []
            end
        end
      else stored (ruff_diagnostics v) [] [] []
  | TimeoutExpired | Failed _ => stored (ruff_diagnostics v) [] [] []
  end.
Proof.
  intros Hpy Hfind. cbv zeta. unfold lint_run.
  rewrite Hpy, Hfind. cbn [negb]. rewrite lint_invocation_erase.
  destruct (spawn H (lint_invocation H settings v ruff_binary))
    as [rc out err| |msg]; [|repeat split..].
  destruct (rc =? 0); [repeat split|].
  destruct (rc =? 1); [|repeat split].
  destruct (if negb (out =? "")%string then json_loads H out
            else Ok (JArr [])) as [diagnostics|e]; cbn [bind];
    [|destruct e; repeat split].
  pose proof (show_diagnostics_state H v diagnostics) as S.
  destruct (_show_diagnostics H (erase_markers v) diagnostics) as [v'|e].
  - destruct S as (ds & -> & S). exact S.
  - rewrite S. destruct e; repeat split.
Qed.

(** X10.  A second lint run on the view the first one left, with the tool giving
    the same answer to the same invocation, stores and draws what the first
    did. *)
Theorem lint_twice (H : Host) (settings : Settings) (v : View) :
  let v1 := lint_run H settings v in
  let v2 := lint_run H settings v1 in
  ruff_diagnostics v2 = ruff_diagnostics v1 /\
  regions v2 "ruff_errors" = regions v1 "ruff_errors" /\
  regions v2 "ruff_warnings" = regions v1 "ruff_warnings" /\
  regions v2 "ruff_info" = regions v1 "ruff_info" /\
  buffer v2 = buffer v.
Proof.
  intros v1 v2.
  assert (Hbuf : buffer v2 = buffer v).
  { subst v2 v1.
    rewrite (proj1 (lint_run_frame H settings _)).
    apply lint_run_frame. }
  split; [|split; [|split; [|split]]]; try exact Hbuf.
  all: destruct (is_python v) eqn:Hpy;
    [|subst v2 v1; unfold lint_run; rewrite Hpy; cbn; rewrite Hpy;
      reflexivity].
  all: destruct (find_ruff_binary H settings) as [bin|msg] eqn:Hfind;
    [|subst v2 v1; unfold lint_run; rewrite Hpy, Hfind; cbn; rewrite Hpy;
      reflexivity].
  all: destruct (lint_run_reads H settings v) as (Rp & Rf & Ro).
  all: fold v1 in Rp, Rf, Ro.
  all: assert (Rb : buffer v1 = buffer v) by apply lint_run_frame.
  all: assert (Hpy1 : is_python v1 = true) by congruence.
  all: pose proof (lint_run_state H settings v Hpy Hfind) as S1.
  all: pose proof (lint_run_state H settings v1 Hpy1 Hfind) as S2.
  all: cbv zeta in S1, S2; fold v1 in S1; fold v2 in S2.
  all: rewrite (lint_invocation_reads H settings v1 v bin Rf Ro Rb) in S2.
  all: destruct (spawn H (lint_invocation H settings v bin))
         as [rc out err| |msg].
  all: try (destruct S1 as (A1 & B1 & C1 & D1);
            destruct S2 as (A2 & B2 & C2 & D2); congruence).
  all: destruct (rc =? 0);
    [destruct S1 as (A1 & B1 & C1 & D1);
     destruct S2 as (A2 & B2 & C2 & D2); congruence|].
  all: destruct (rc =? 1);
    [|destruct S1 as (A1 & B1 & C1 & D1);
      destruct S2 as (A2 & B2 & C2 & D2); congruence].
  all: destruct (if negb (out =? "")%string then json_loads H out
                 else Ok (JArr [])) as [diagnostics|e0];
    [|destruct S1 as (A1 & B1 & C1 & D1);
      destruct S2 as (A2 & B2 & C2 & D2); congruence].
  all: unfold diagnostics_of in S1, S2.
  all: destruct (py_iter diagnostics) as [diags|e]; cbn [bind] in S1, S2;
    [|destruct S1 as (A1 & B1 & C1 & D1);
      destruct S2 as (A2 & B2 & C2 & D2); congruence].
  all: rewrite (all_diagnostics_of_buffer H v1 v diags Rb) in S2.
  all: destruct (all_diagnostics_of H v diags) as [ds|e];
    destruct S1 as (A1 & B1 & C1 & D1);
    destruct S2 as (A2 & B2 & C2 & D2); congruence.
Qed.

